(** * Presence: face-descriptor matching and attendance reconciliation

    A shallow embedding of the matching and calendar logic of the Presence
    attendance application:

    - [recognizeFace], [calculateDistance], [recordAttendance]
      (services/face-recognition/RecognitionService.ts),
    - [storeUnrecognizedFace] (the registration service),
    - [fetchAttendanceRecords] (the attendance utilities),
    - the effects of the [useAttendanceCalendar] hook.

    JavaScript numbers are IEEE-754 binary64 values, which is what Rocq's
    primitive [float] is; a [Float32Array] is a list of such values.  A [Date]
    is its [getTime()] value, an integer number of milliseconds.  A call that
    may throw returns a [Completion]. *)

From Stdlib Require Import ZArith List String Ascii Bool Lia.
From Stdlib Require Import Floats.
Import ListNotations.

Set Warnings "-inexact-float".

(** ** JavaScript primitives *)

Module Js.

(** The outcome of evaluating a block: a value, or a thrown [Error] with
    its message. *)
Inductive Completion (A : Type) : Type :=
| Returned (a : A)
| Thrown (message : string).
Arguments Returned {A} a.
Arguments Thrown {A} message.

Definition bind {A B : Type} (c : Completion A) (k : A -> Completion B)
  : Completion B :=
  match c with
  | Returned a => k a
  | Thrown m => Thrown m
  end.

(** A JSON value as far as the code inspects it ([typeof], truthiness). *)
Inductive Value : Type :=
| Null
| Boolean (b : bool)
| Number (x : float)
| Str (s : string)
| Object.

Definition isEmpty (s : string) : bool :=
  match s with
  | EmptyString => true
  | String _ _ => false
  end.

(** [ToBoolean]. *)
Definition truthy (v : Value) : bool :=
  match v with
  | Null => false
  | Boolean b => b
  | Number x => negb (PrimFloat.eqb x 0%float || PrimFloat.is_nan x)
  | Str s => negb (isEmpty s)
  | Object => true
  end.

(** [a || b] on an optional string: the empty string is falsy too. *)
Definition orElse (a : option string) (b : string) : string :=
  match a with
  | Some s => if isEmpty s then b else s
  | None => b
  end.

(** [String.prototype.toLowerCase] on the ASCII letters. *)
Definition lowerChar (c : ascii) : ascii :=
  let n := nat_of_ascii c in
  if (65 <=? n)%nat && (n <=? 90)%nat then ascii_of_nat (n + 32) else c.

Fixpoint toLowerCase (s : string) : string :=
  match s with
  | EmptyString => EmptyString
  | String c s' => String (lowerChar c) (toLowerCase s')
  end.

(** [String.prototype.includes]. *)
Fixpoint includes (s sub : string) : bool :=
  String.prefix sub s
  || match s with
     | EmptyString => false
     | String _ s' => includes s' sub
     end.

End Js.

Import Js.

Declare Scope completion_scope.
Delimit Scope completion_scope with completion.
Notation "x <- c ;; k" := (Js.bind c (fun x => k))
  (at level 61, c at next level, right associativity) : completion_scope.

(** ** Rows of the [attendance_records] table *)

(** [device_info.metadata]. *)
Record Metadata : Type := {
  name : option string;
  employee_id : option string;
  department : option string;
  position : option string;
  firebase_image_url : option string;
  faceDescriptor : option Js.Value
}.

(** [device_info]: the keys of the [DeviceInfo] interface, and the two more
    ([confidence], [userAgent]) that the write paths store. *)
Record DeviceInfo : Type := {
  metadata : option Metadata;
  type : option string;
  di_timestamp : option string;
  registration : option bool;
  di_firebase_image_url : option string;
  di_confidence : option float;
  userAgent : option string
}.

(** A date is its epoch value in milliseconds. *)
Definition Date : Type := Z.

(** One stored row.  [user_id], [timestamp] and [device_info] are [None]
    when the column is null; [status] is [None] when it is not a string. *)
Record AttendanceRow : Type := {
  row_id : string;
  user_id : option string;
  timestamp : option Date;
  status : option string;
  device_info : option DeviceInfo
}.

(** What a supabase query resolves to. *)
Record QueryResponse : Type := {
  data : option (list AttendanceRow);
  error : option string
}.

(** ** Descriptor matcher *)

Definition Descriptor : Type := list float.

Record Employee : Type := {
  emp_id : string;
  emp_name : string;
  emp_employee_id : string;
  emp_department : string;
  emp_position : string;
  emp_firebase_image_url : string
}.

Record RecognitionResult : Type := {
  recognized : bool;
  employee : option Employee;
  confidence : option float
}.

(** The loop of [calculateDistance]: [sum += diff * diff] for each index. *)
Fixpoint sumSquares (sum : float) (descriptor1 descriptor2 : Descriptor) : float :=
  match descriptor1, descriptor2 with
  | x :: d1, y :: d2 => sumSquares (sum + (x - y) * (x - y))%float d1 d2
  | _, _ => sum
  end.

Definition calculateDistance (descriptor1 descriptor2 : Descriptor)
  : Completion float :=
  if (List.length descriptor1 =? List.length descriptor2)%nat
  then Returned (PrimFloat.sqrt (sumSquares 0%float descriptor1 descriptor2))
  else Thrown "Face descriptors have different dimensions".

(** The distance threshold [bestDistance] starts from. *)
Definition threshold : float := 0.6%float.

Definition notRecognized : RecognitionResult :=
  {| recognized := false; employee := None; confidence := None |}.

Definition employeeOf (bestMatch : AttendanceRow) (employeeData : Metadata)
  : Employee :=
  {| emp_id := orElse (user_id bestMatch) "unknown";
     emp_name := orElse (name employeeData) "Unknown";
     emp_employee_id := orElse (employee_id employeeData) "Unknown";
     emp_department := orElse (department employeeData) "Unknown";
     emp_position := orElse (position employeeData) "Unknown";
     emp_firebase_image_url := orElse (firebase_image_url employeeData) "" |}.

(** [deviceInfo?.metadata]. *)
Definition metadataOf (record : AttendanceRow) : option Metadata :=
  match device_info record with
  | Some deviceInfo => metadata deviceInfo
  | None => None
  end.

Section Recognition.

(** [stringToDescriptor] of the model service, which may throw on a
    malformed string. *)
Variable stringToDescriptor : string -> Completion Descriptor.

(** The stored descriptor string the loop reads from a row, when the guard
    [deviceInfo?.metadata?.faceDescriptor && typeof ... === 'string']
    lets the row through. *)
Definition storedDescriptor (record : AttendanceRow) : option string :=
  match metadataOf record with
  | Some md =>
      match faceDescriptor md with
      | Some (Str s) => if truthy (Str s) then Some s else None
      | _ => None
      end
  | None => None
  end.

(** The body of the inner [try]: the distance of a row that passes the
    guard, nothing for a row that does not, or a thrown error. *)
Definition compareRecord (faceDescriptor : Descriptor) (record : AttendanceRow)
  : Completion (option float) :=
  match storedDescriptor record with
  | Some s =>
      (registeredDescriptor <- stringToDescriptor s ;;
       distance <- calculateDistance faceDescriptor registeredDescriptor ;;
       Returned (Some distance))%completion
  | None => Returned None
  end.

(** The distance the loop measures for a row: none when the row is passed
    over, either by the guard or by the [catch]. *)
Definition distanceTo (faceDescriptor : Descriptor) (record : AttendanceRow)
  : option float :=
  match compareRecord faceDescriptor record with
  | Returned d => d
  | Thrown _ => None
  end.

(** Why a row is passed over: it stores no descriptor string, the string
    does not decode, or the decoded descriptor has another length. *)
Inductive skipped (faceDescriptor : Descriptor) (record : AttendanceRow) : Prop :=
| skipped_no_descriptor :
    storedDescriptor record = None -> skipped faceDescriptor record
| skipped_undecodable (s message : string) :
    storedDescriptor record = Some s ->
    stringToDescriptor s = Thrown message ->
    skipped faceDescriptor record
| skipped_dimension (s : string) (registeredDescriptor : Descriptor) :
    storedDescriptor record = Some s ->
    stringToDescriptor s = Returned registeredDescriptor ->
    List.length faceDescriptor <> List.length registeredDescriptor ->
    skipped faceDescriptor record.

(** [m] is the least distance among the rows that have one. *)
Definition minimumDistance (faceDescriptor : Descriptor)
    (records : list AttendanceRow) (m : float) : Prop :=
  (exists r, In r records /\ distanceTo faceDescriptor r = Some m)
  /\ forall r d, In r records -> distanceTo faceDescriptor r = Some d ->
                 (d <? m)%float = false.

(** One iteration of the [for] loop over the registered rows; the [catch]
    logs and goes on with the next row. *)
Definition loopBody (faceDescriptor : Descriptor)
    (st : option AttendanceRow * float) (record : AttendanceRow)
  : option AttendanceRow * float :=
  let '(bestMatch, bestDistance) := st in
  match compareRecord faceDescriptor record with
  | Returned (Some distance) =>
      if (distance <? bestDistance)%float
      then (Some record, distance)
      else (bestMatch, bestDistance)
  | Returned None => (bestMatch, bestDistance)
  | Thrown _ => (bestMatch, bestDistance)
  end.

Definition scanRecords (faceDescriptor : Descriptor) (records : list AttendanceRow)
  : option AttendanceRow * float :=
  fold_left (loopBody faceDescriptor) records (None, threshold).

(** [recognizeFace], given what the query for the registered rows
    resolved to.  The string form of the probe that the function computes
    first is used nowhere in it. *)
Definition recognizeFace (faceDescriptor : Descriptor) (response : QueryResponse)
  : Completion RecognitionResult :=
  match error response with
  | Some message => Thrown ("Database query failed: " ++ message)%string
  | None =>
      match data response with
      | None | Some [] => Returned notRecognized
      | Some records =>
          let '(bestMatch, bestDistance) := scanRecords faceDescriptor records in
          match bestMatch with
          | Some bestRow =>
              match metadataOf bestRow with
              | None => Returned notRecognized
              | Some employeeData =>
                  Returned {| recognized := true;
                              employee := Some (employeeOf bestRow employeeData);
                              confidence := Some (1 - bestDistance)%float |}
              end
          | None => Returned notRecognized
          end
      end
  end.

End Recognition.

(** A query that answered with these rows. *)
Definition answered (records : list AttendanceRow) : QueryResponse :=
  {| data := Some records; error := None |}.

(** ** Write paths *)

(** The [status] argument of [recordAttendance]. *)
Inductive AttendanceStatus : Type :=
| present
| late
| absent
| unauthorized.

Definition statusString (s : AttendanceStatus) : string :=
  match s with
  | present => "present"
  | late => "late"
  | absent => "absent"
  | unauthorized => "unauthorized"
  end.

(** The object handed to [insert] on [attendance_records]. *)
Record InsertedRow : Type := {
  ins_user_id : option string;
  ins_timestamp : option string;
  ins_status : string;
  ins_device_info : DeviceInfo;
  ins_confidence_score : option float;
  ins_image_url : option string
}.

(** [a || b] on optional values. *)
Definition orOption {A : Type} (a b : option A) : option A :=
  match a with
  | Some _ => a
  | None => b
  end.

Definition nonEmptyString (a : option string) : option string :=
  match a with
  | Some s => if isEmpty s then None else Some s
  | None => None
  end.

(** [{ ...deviceInfo?.metadata, name: ... }]. *)
Definition withName (md : option Metadata) (newName : string) : Metadata :=
  match md with
  | Some m =>
      {| name := Some newName;
         employee_id := employee_id m;
         department := department m;
         position := position m;
         firebase_image_url := firebase_image_url m;
         faceDescriptor := faceDescriptor m |}
  | None =>
      {| name := Some newName;
         employee_id := None;
         department := None;
         position := None;
         firebase_image_url := None;
         faceDescriptor := None |}
  end.

(** [fullDeviceInfo]: the defaults, overridden by the keys of [deviceInfo],
    with [metadata] rebuilt last. *)
Definition fullDeviceInfo (isoNow : string) (confidence : option float)
    (deviceInfo : option DeviceInfo) (userName : option string) : DeviceInfo :=
  let given := match deviceInfo with
               | Some d => metadata d
               | None => None
               end in
  let givenName := match given with
                   | Some m => name m
                   | None => None
                   end in
  let newName := orElse (orOption (nonEmptyString userName) (nonEmptyString givenName))
                        "Unknown" in
  match deviceInfo with
  | Some d =>
      {| metadata := Some (withName given newName);
         type := orOption (type d) (Some "webcam"%string);
         di_timestamp := orOption (di_timestamp d) (Some isoNow);
         registration := registration d;
         di_firebase_image_url := di_firebase_image_url d;
         di_confidence := orOption (di_confidence d) confidence;
         userAgent := userAgent d |}
  | None =>
      {| metadata := Some (withName None newName);
         type := Some "webcam"%string;
         di_timestamp := Some isoNow;
         registration := None;
         di_firebase_image_url := None;
         di_confidence := confidence;
         userAgent := None |}
  end.

(** The row [recordAttendance] inserts.  [isoNow] is [new Date().toISOString()]
    and [profileUsername] what the [profiles] table holds for [userId]. *)
Definition recordAttendanceRow (isoNow : string) (profileUsername : option string)
    (userId : string) (status : AttendanceStatus) (confidence : option float)
    (deviceInfo : option DeviceInfo) : InsertedRow :=
  let normalizedStatus := match status with
                          | unauthorized => present
                          | _ => status
                          end in
  let userName :=
    if negb (isEmpty userId) && negb (String.eqb userId "unknown")
    then nonEmptyString profileUsername
    else None in
  {| ins_user_id := Some userId;
     ins_timestamp := Some isoNow;
     ins_status := statusString normalizedStatus;
     ins_device_info := fullDeviceInfo isoNow confidence deviceInfo userName;
     ins_confidence_score := confidence;
     ins_image_url := None |}.

(** [recordAttendance]: the inserted row comes back, or the insert's error is
    thrown. *)
Definition recordAttendance (isoNow : string) (profileUsername : option string)
    (insertError : option string)
    (userId : string) (status : AttendanceStatus) (confidence : option float)
    (deviceInfo : option DeviceInfo) : Completion InsertedRow :=
  match insertError with
  | Some message => Thrown ("Failed to record attendance: " ++ message)%string
  | None => Returned (recordAttendanceRow isoNow profileUsername userId status
                        confidence deviceInfo)
  end.

(** [storeUnrecognizedFace]: the row it hands to [insert], if it gets that
    far.  [blob] is the outcome of decoding the image data (the size of the
    blob) and [uploaded] that of [uploadFaceImage]; the function itself never
    throws.  Whether the table then holds the row is [unrecognizedFaceStored]. *)
Definition storeUnrecognizedFace (isoNow agent imageData : string)
    (blob : Completion N) (uploaded : Completion string) : option InsertedRow :=
  match blob with
  | Thrown _ => None
  | Returned blobSize =>
  if (blobSize =? 0)%N then None
  else
    let imageUrl := match uploaded with
                    | Returned url => url
                    | Thrown _ => imageData
                    end in
    Some {| ins_user_id := None;
            ins_timestamp := None;
            ins_status := "unauthorized";
            ins_device_info :=
              {| metadata := None;
                 type := Some "webcam"%string;
                 di_timestamp := Some isoNow;
                 registration := None;
                 di_firebase_image_url := Some imageUrl;
                 di_confidence := None;
                 userAgent := Some agent |};
            ins_confidence_score := None;
            ins_image_url := Some imageUrl |}
  end.

(** What the table holds once [storeUnrecognizedFace] has returned.
    [inserted] is the outcome of the awaited [insert]: the error it reports,
    if any, or the reason it rejects with.  An error is logged and nothing is
    stored; a rejection is caught like every other one. *)
Definition unrecognizedFaceStored (isoNow agent imageData : string)
    (blob : Completion N) (uploaded : Completion string)
    (inserted : Completion (option string)) : option InsertedRow :=
  match storeUnrecognizedFace isoNow agent imageData blob uploaded with
  | None => None
  | Some row =>
      match inserted with
      | Returned None => Some row
      | Returned (Some _) | Thrown _ => None
      end
  end.

(** ** Attendance calendar *)

(** A row of [recentAttendance], the live feed of the attendance context. *)
Record RecentRecord : Type := {
  rr_id : string;
  rr_user_id : option string;
  rr_timestamp : Date;
  rr_status : string
}.

(** An entry of [dailyAttendance]. *)
Record DailyEntry : Type := {
  de_id : string;
  de_timestamp : Date;
  de_status : string
}.

(** The state cells of [useAttendanceCalendar] that hold dates ([selectedFace]
    and [loading] only feed the display). *)
Record CalendarState : Type := {
  attendanceDays : list Date;
  lateAttendanceDays : list Date;
  absentDays : list Date;
  workingDays : list Date;
  selectedDate : option Date;
  dailyAttendance : list DailyEntry
}.

(** React's [SetStateAction]: a new value, or a function of the previous one. *)
Inductive SetStateAction (S : Type) : Type :=
| Value (s : S)
| Updater (f : S -> S).
Arguments Value {S} s.
Arguments Updater {S} f.

Definition resolveAction {S : Type} (a : SetStateAction S) (prev : S) : S :=
  match a with
  | Value s => s
  | Updater f => f prev
  end.

(** A call of one of the hook's state setters. *)
Inductive StateUpdate : Type :=
| setAttendanceDays (a : SetStateAction (list Date))
| setLateAttendanceDays (a : SetStateAction (list Date))
| setAbsentDays (a : SetStateAction (list Date))
| setWorkingDays (a : SetStateAction (list Date))
| setSelectedDate (d : option Date)
| setDailyAttendance (l : list DailyEntry).

Definition applyUpdate (st : CalendarState) (u : StateUpdate) : CalendarState :=
  match u with
  | setAttendanceDays a =>
      {| attendanceDays := resolveAction a (attendanceDays st);
         lateAttendanceDays := lateAttendanceDays st;
         absentDays := absentDays st;
         workingDays := workingDays st;
         selectedDate := selectedDate st;
         dailyAttendance := dailyAttendance st |}
  | setLateAttendanceDays a =>
      {| attendanceDays := attendanceDays st;
         lateAttendanceDays := resolveAction a (lateAttendanceDays st);
         absentDays := absentDays st;
         workingDays := workingDays st;
         selectedDate := selectedDate st;
         dailyAttendance := dailyAttendance st |}
  | setAbsentDays a =>
      {| attendanceDays := attendanceDays st;
         lateAttendanceDays := lateAttendanceDays st;
         absentDays := resolveAction a (absentDays st);
         workingDays := workingDays st;
         selectedDate := selectedDate st;
         dailyAttendance := dailyAttendance st |}
  | setWorkingDays a =>
      {| attendanceDays := attendanceDays st;
         lateAttendanceDays := lateAttendanceDays st;
         absentDays := absentDays st;
         workingDays := resolveAction a (workingDays st);
         selectedDate := selectedDate st;
         dailyAttendance := dailyAttendance st |}
  | setSelectedDate d =>
      {| attendanceDays := attendanceDays st;
         lateAttendanceDays := lateAttendanceDays st;
         absentDays := absentDays st;
         workingDays := workingDays st;
         selectedDate := d;
         dailyAttendance := dailyAttendance st |}
  | setDailyAttendance l =>
      {| attendanceDays := attendanceDays st;
         lateAttendanceDays := lateAttendanceDays st;
         absentDays := absentDays st;
         workingDays := workingDays st;
         selectedDate := selectedDate st;
         dailyAttendance := l |}
  end.

(** The updates of one batch, applied in the order of the calls. *)
Definition applyUpdates (st : CalendarState) (us : list StateUpdate) : CalendarState :=
  fold_left applyUpdate us st.

(** *** [fetchAttendanceRecords] *)

(** How an awaited query settles. *)
Inductive Settled : Type :=
| Fulfilled (response : QueryResponse)
| Rejected (reason : string).

(** [data || []]. *)
Definition orEmpty (d : option (list AttendanceRow)) : list AttendanceRow :=
  match d with
  | Some l => l
  | None => []
  end.

(** [{ ...record, status: typeof record.status === 'string' ?
    record.status.toLowerCase() : record.status }]. *)
Definition lowerStatus (record : AttendanceRow) : AttendanceRow :=
  {| row_id := row_id record;
     user_id := user_id record;
     timestamp := timestamp record;
     status := option_map toLowerCase (status record);
     device_info := device_info record |}.

Definition statusIs (s : string) (record : AttendanceRow) : bool :=
  match status record with
  | Some s' => String.eqb s' s
  | None => false
  end.

Definition isPresentRecord (record : AttendanceRow) : bool :=
  statusIs "present" record || statusIs "unauthorized" record.

Definition isLateRecord (record : AttendanceRow) : bool :=
  statusIs "late" record.

(** [records.map(r => r.timestamp ? new Date(r.timestamp) : null)
            .filter(date => date !== null)]. *)
Definition toDays (records : list AttendanceRow) : list Date :=
  flat_map (fun record => match timestamp record with
                          | Some t => [t]
                          | None => []
                          end) records.

Definition isNil {A : Type} (l : list A) : bool :=
  match l with
  | [] => true
  | _ :: _ => false
  end.

(** The days [fetchAttendanceRecords] hands to a setter for one kind of
    record. *)
Definition daysOrNone (records : list AttendanceRow) : list Date :=
  if isNil records then [] else toDays records.

(** [fetchAttendanceRecords], given how its two queries settle: the setter
    calls it makes, and whether it returns or rethrows. *)
Definition fetchAttendanceRecords (recordsById recordsByUserId : Settled)
  : list StateUpdate * Completion unit :=
  match recordsById with
  | Rejected reason => ([], Thrown reason)
  | Fulfilled byId =>
      match recordsByUserId with
      | Rejected reason => ([], Thrown reason)
      | Fulfilled byUserId =>
          let allRecords := orEmpty (data byId) ++ orEmpty (data byUserId) in
          if isNil allRecords
          then ([setAttendanceDays (Value []); setLateAttendanceDays (Value [])],
                Returned tt)
          else
            let allRecords := map lowerStatus allRecords in
            let presentRecords := filter isPresentRecord allRecords in
            let lateRecords := filter isLateRecord allRecords in
            ([setAttendanceDays (Value (daysOrNone presentRecords));
              setLateAttendanceDays (Value (daysOrNone lateRecords))],
             Returned tt)
      end
  end.

(** The toast [loadAttendanceRecords] shows when the fetch throws. *)
Record Toast : Type := {
  title : string;
  description : string;
  variant : string
}.

(** [loadAttendanceRecords]: the setter calls, and the toast if any. *)
Definition loadAttendanceRecords (recordsById recordsByUserId : Settled)
  : list StateUpdate * option Toast :=
  match fetchAttendanceRecords recordsById recordsByUserId with
  | (updates, Returned _) => (updates, None)
  | (updates, Thrown _) =>
      (updates, Some {| title := "Error";
                        description := "Failed to load attendance records";
                        variant := "destructive" |})
  end.

(** The table behind the two queries: [.eq('id', faceId)] and
    [.eq('user_id', faceId)] when the database answers. *)
Definition selectById (table : list AttendanceRow) (faceId : string) : QueryResponse :=
  {| data := Some (filter (fun r => String.eqb (row_id r) faceId) table);
     error := None |}.

Definition selectByUserId (table : list AttendanceRow) (faceId : string)
  : QueryResponse :=
  {| data := Some (filter (fun r => match user_id r with
                                    | Some u => String.eqb u faceId
                                    | None => false
                                    end) table);
     error := None |}.

Definition fetchFromTable (table : list AttendanceRow) (faceId : string)
  : list StateUpdate * Completion unit :=
  fetchAttendanceRecords (Fulfilled (selectById table faceId))
                         (Fulfilled (selectByUserId table faceId)).

(** *** The effects of [useAttendanceCalendar] *)

Definition msPerDay : Z := 86400000.

Section Calendar.

(** The offset of local time from UTC, in milliseconds. *)
Variable tzOffset : Z.

(** [d.setHours(0, 0, 0, 0)]. *)
Definition startOfDay (d : Date) : Date :=
  (d - (d + tzOffset) mod msPerDay)%Z.

(** [d.setHours(23, 59, 59, 999)]. *)
Definition endOfDay (d : Date) : Date :=
  (startOfDay d + msPerDay - 1)%Z.

(** Modelled from the spec: [isDateInArray] of the attendance utilities is
    not among the sources.  The spec's merge rule has the membership test
    use calendar-date equality, the time of day truncated before comparing. *)
Definition isDateInArray (date : Date) (dateArray : list Date) : bool :=
  existsb (fun d => (startOfDay d =? startOfDay date)%Z) dateArray.

(** [record.user_id === selectedFaceId || record.id === selectedFaceId]. *)
Definition matchesFace (selectedFaceId : string) (record : RecentRecord) : bool :=
  match rr_user_id record with
  | Some u => String.eqb u selectedFaceId
  | None => false
  end
  || String.eqb (rr_id record) selectedFaceId.

Definition isPresentStatus (s : string) : bool :=
  String.eqb s "Present" || includes (toLowerCase s) "present".

Definition isLateStatus (s : string) : bool :=
  String.eqb s "Late" || includes (toLowerCase s) "late".

(** The callback of [faceRecords.forEach]: the pair is [presentDates] and
    [lateDates]. *)
Definition collectDate (acc : list Date * list Date) (record : RecentRecord)
  : list Date * list Date :=
  let '(presentDates, lateDates) := acc in
  let recordDate := startOfDay (rr_timestamp record) in
  let dateExists :=
    existsb (fun d => (d =? recordDate)%Z) presentDates
    || existsb (fun d => (d =? recordDate)%Z) lateDates in
  if dateExists then acc
  else if isPresentStatus (rr_status record) then (presentDates ++ [recordDate], lateDates)
  else if isLateStatus (rr_status record) then (presentDates, lateDates ++ [recordDate])
  else acc.

Definition collectDates (faceRecords : list RecentRecord) : list Date * list Date :=
  fold_left collectDate faceRecords ([], []).

(** The state updater [prev => { const combined = [...prev]; ... }]. *)
Definition mergeDates (dates prev : list Date) : list Date :=
  fold_left (fun combined date =>
               if isDateInArray date combined then combined else combined ++ [date])
            dates prev.

Definition toDailyEntry (record : RecentRecord) : DailyEntry :=
  {| de_id := rr_id record;
     de_timestamp := rr_timestamp record;
     de_status := toLowerCase (rr_status record) |}.

(** The first effect: process [recentAttendance] for the selected face.  The
    result is the list of setter calls the run makes. *)
Definition recentAttendanceEffect (selectedFaceId : option string)
    (recentAttendance : list RecentRecord) (currentSelectedDate : option Date)
  : list StateUpdate :=
  match nonEmptyString selectedFaceId with
  | None => []
  | Some faceId =>
      if isNil recentAttendance then []
      else
        let faceRecords := filter (matchesFace faceId) recentAttendance in
        if isNil faceRecords then []
        else
          let '(presentDates, lateDates) := collectDates faceRecords in
          (if isNil presentDates then []
           else [setAttendanceDays (Updater (mergeDates presentDates))])
          ++ (if isNil lateDates then []
              else [setLateAttendanceDays (Updater (mergeDates lateDates))])
          ++ match currentSelectedDate with
             | None => []
             | Some selected =>
                 let recordsForSelectedDate :=
                   filter (fun record =>
                             (startOfDay selected <=? rr_timestamp record)%Z
                             && (rr_timestamp record <=? endOfDay selected)%Z)
                          faceRecords in
                 if isNil recordsForSelectedDate then []
                 else [setDailyAttendance (map toDailyEntry recordsForSelectedDate)]
             end
  end.

(** The fourth effect: derive the absent days.  [today] is [new Date()]. *)
Definition absentDaysEffect (today : Date) (st : CalendarState) : list StateUpdate :=
  if negb (isNil (workingDays st))
     && (negb (isNil (attendanceDays st)) || negb (isNil (lateAttendanceDays st)))
  then
    [setAbsentDays
       (Value (filter (fun workDay =>
                         if (workDay >? today)%Z then false
                         else negb (isDateInArray workDay (attendanceDays st))
                              && negb (isDateInArray workDay (lateAttendanceDays st)))
                      (workingDays st)))]
  else [].

(** The second effect, as far as it sets state at once: with a face id the
    working days of the current month, [generated] being what
    [generateWorkingDays] returned; without one the day lists are emptied.
    The fetch it starts with a face id sets state later, on its own. *)
Definition subscriptionEffect (selectedFaceId : option string) (generated : list Date)
  : list StateUpdate :=
  match nonEmptyString selectedFaceId with
  | Some _ => [setWorkingDays (Value generated)]
  | None =>
      [setAttendanceDays (Value []); setLateAttendanceDays (Value []);
       setAbsentDays (Value [])]
  end.

(** The third effect, as far as it sets state at once: without a face id or
    without a selected date the daily list is emptied; with both,
    [loadDailyAttendance] starts and sets state later, on its own. *)
Definition dailyAttendanceEffect (selectedFaceId : option string)
    (currentSelectedDate : option Date) : list StateUpdate :=
  match nonEmptyString selectedFaceId, currentSelectedDate with
  | Some _, Some _ => []
  | _, _ => [setDailyAttendance []]
  end.

(** The absent-day effect depends on [workingDays], [attendanceDays] and
    [lateAttendanceDays]: it runs again after a batch that set one of them
    (each such call stores a fresh array). *)
Definition touchesAbsentDeps (u : StateUpdate) : bool :=
  match u with
  | setAttendanceDays _ | setLateAttendanceDays _ | setWorkingDays _ => true
  | _ => false
  end.

(** The hook returns its state at every render, and an effect runs after the
    render that changed one of its dependencies.  So a batch of setter calls
    is first rendered as it stands, [absentDays] still being the list derived
    from the lists before the batch: that is [pendingRender].  The setter
    calls of one run of the effects, or of one continuation of a fetch, make
    one batch. *)
Definition pendingRender (updates : list StateUpdate) (st : CalendarState)
  : CalendarState :=
  applyUpdates st updates.

(** After that render the absent-day effect runs, if the batch set one of its
    dependencies, and the next render returns the state the hook settles
    in: that is [commit]. *)
Definition commit (today : Date) (updates : list StateUpdate) (st : CalendarState)
  : CalendarState :=
  let st' := applyUpdates st updates in
  if existsb touchesAbsentDeps updates
  then applyUpdates st' (absentDaysEffect today st')
  else st'.

(** What happens to the hook.  [FaceChanged] is a new [selectedFaceId], null
    included, or the mount; [RecentAttendanceChanged] a new [recentAttendance]
    from the context; [RecordsLoaded] and [DailyLoaded] the two fetches
    coming back; [DateSelected] a call of the returned [setSelectedDate]
    that changes the date.
    The face id and the recent attendance are not state of the hook: an event
    that runs the first effect carries their current values. *)
Inductive HookEvent : Type :=
| FaceChanged (selectedFaceId : option string)
              (recentAttendance : list RecentRecord) (generated : list Date)
| RecentAttendanceChanged (selectedFaceId : option string)
                          (recentAttendance : list RecentRecord)
| RecordsLoaded (recordsById recordsByUserId : Settled)
| DateSelected (d : option Date) (selectedFaceId : option string)
               (recentAttendance : list RecentRecord)
| DailyLoaded (l : list DailyEntry).

(** The setter calls of each event, in the order the effects are declared.
    A new face id is a dependency of the first three effects; a new selected
    date is one of the first and of the third, which run on the date just
    set. *)
Definition updatesOf (ev : HookEvent) (st : CalendarState) : list StateUpdate :=
  match ev with
  | FaceChanged selectedFaceId recentAttendance generated =>
      recentAttendanceEffect selectedFaceId recentAttendance (selectedDate st)
      ++ subscriptionEffect selectedFaceId generated
      ++ dailyAttendanceEffect selectedFaceId (selectedDate st)
  | RecentAttendanceChanged selectedFaceId recentAttendance =>
      recentAttendanceEffect selectedFaceId recentAttendance (selectedDate st)
  | RecordsLoaded recordsById recordsByUserId =>
      fst (loadAttendanceRecords recordsById recordsByUserId)
  | DateSelected d selectedFaceId recentAttendance =>
      setSelectedDate d
      :: recentAttendanceEffect selectedFaceId recentAttendance d
      ++ dailyAttendanceEffect selectedFaceId d
  | DailyLoaded l => [setDailyAttendance l]
  end.

Definition step (today : Date) (ev : HookEvent) (st : CalendarState) : CalendarState :=
  commit today (updatesOf ev st) st.

Definition initialState (now : Date) : CalendarState :=
  {| attendanceDays := [];
     lateAttendanceDays := [];
     absentDays := [];
     workingDays := [];
     selectedDate := Some now;
     dailyAttendance := [] |}.

(** [settled derivedAt st]: the hook can settle in state [st], every effect
    having run, the absent-day effect last at clock reading [derivedAt]. *)
Inductive settled : Date -> CalendarState -> Prop :=
| settled_mount (now : Date) :
    settled now (initialState now)
| settled_step (derivedAt now : Date) (st : CalendarState) (ev : HookEvent) :
    settled derivedAt st ->
    settled (if existsb touchesAbsentDeps (updatesOf ev st) then now else derivedAt)
            (step now ev st).

(** [rendered st]: a render of the hook returns [st].  That is a state it
    settles in, the render of a newly selected date before the effects have
    run on it, or the render of an event's batch before the absent-day effect
    has run. *)
Inductive rendered : CalendarState -> Prop :=
| rendered_settled (derivedAt : Date) (st : CalendarState) :
    settled derivedAt st -> rendered st
| rendered_date (derivedAt : Date) (st : CalendarState) (d : option Date) :
    settled derivedAt st -> rendered (pendingRender [setSelectedDate d] st)
| rendered_pending (derivedAt : Date) (st : CalendarState) (ev : HookEvent) :
    settled derivedAt st -> rendered (pendingRender (updatesOf ev st) st).

(** The two orders of merging one historical fetch result and one batch of
    live events, both at clock reading [today]. *)
Definition historicalThenLive (today : Date) (recordsById recordsByUserId : Settled)
    (selectedFaceId : option string) (recentAttendance : list RecentRecord)
    (st : CalendarState) : CalendarState :=
  step today (RecentAttendanceChanged selectedFaceId recentAttendance)
       (step today (RecordsLoaded recordsById recordsByUserId) st).

Definition liveThenHistorical (today : Date) (recordsById recordsByUserId : Settled)
    (selectedFaceId : option string) (recentAttendance : list RecentRecord)
    (st : CalendarState) : CalendarState :=
  step today (RecordsLoaded recordsById recordsByUserId)
       (step today (RecentAttendanceChanged selectedFaceId recentAttendance) st).

End Calendar.

(** * Properties *)

(** ** The primitives on a few inputs *)

Example toLowerCase_mixed : toLowerCase "Unauthorized" = "unauthorized"%string.
Proof. reflexivity. Qed.

Example includes_inside : includes "not present" "present" = true.
Proof. reflexivity. Qed.

Example includes_absent : includes "unauthorized" "present" = false.
Proof. reflexivity. Qed.

Example calculateDistance_3_4 :
  calculateDistance [0; 0]%float [0.3; 0.4]%float = Returned 0.5%float.
Proof. vm_compute. reflexivity. Qed.

Example calculateDistance_mismatch :
  calculateDistance [0; 0]%float [1]%float
  = Thrown "Face descriptors have different dimensions".
Proof. reflexivity. Qed.

(** ** The order of binary64 numbers *)

Ltac order_cases :=
  repeat match goal with
         | |- context [Z.compare ?a ?b] => destruct (Z.compare_spec a b)
         | H : context [Z.compare ?a ?b] |- _ => destruct (Z.compare_spec a b)
         | |- context [Pos.compare ?a ?b] => destruct (Pos.compare_spec a b)
         | H : context [Pos.compare ?a ?b] |- _ => destruct (Pos.compare_spec a b)
         end;
  simpl in *; subst; try discriminate; try reflexivity; try lia.

Lemma SFcompare_finite (s1 : bool) (m1 : positive) (e1 : Z)
    (s2 : bool) (m2 : positive) (e2 : Z) :
  SFcompare (S754_finite s1 m1 e1) (S754_finite s2 m2 e2) =
  Some match s1, s2 with
       | true, false => Lt
       | false, true => Gt
       | false, false =>
           match Z.compare e1 e2 with
           | Lt => Lt
           | Gt => Gt
           | Eq => Pos.compare m1 m2
           end
       | true, true =>
           match Z.compare e1 e2 with
           | Lt => Gt
           | Gt => Lt
           | Eq => CompOpp (Pos.compare m1 m2)
           end
       end.
Proof. reflexivity. Qed.

Lemma SFcompare_Lt_trans (x y z : spec_float) :
  SFcompare x y = Some Lt -> SFcompare y z = Some Lt -> SFcompare x z = Some Lt.
Proof.
  destruct x as [sx|sx| |sx mx ex], y as [sy|sy| |sy my ey], z as [sz|sz| |sz mz ez];
    rewrite ?SFcompare_finite; simpl; try discriminate;
    try (destruct sx; discriminate);
    try (destruct sy; discriminate); try (destruct sz; discriminate);
    try (destruct sx, sy; discriminate); try (destruct sy, sz; discriminate);
    try (destruct sx, sy, sz; simpl; congruence).
  intros H1 H2. injection H1 as H1. injection H2 as H2. f_equal.
  destruct sx, sy, sz; try discriminate; try reflexivity; order_cases.
Qed.

Lemma SFcompare_Lt_irrefl (x : spec_float) : SFcompare x x <> Some Lt.
Proof.
  destruct x as [s|s| |s m e]; rewrite ?SFcompare_finite; simpl;
    try discriminate; destruct s; try discriminate.
  - rewrite Z.compare_refl, Pos.compare_refl. discriminate.
  - rewrite Z.compare_refl, Pos.compare_refl. discriminate.
Qed.

Lemma SFcompare_total (x y : spec_float) :
  x <> S754_nan -> y <> S754_nan ->
  SFcompare x y = Some Lt \/ SFcompare y x = Some Lt \/ SFcompare x y = Some Eq.
Proof.
  destruct x as [sx|sx| |sx mx ex], y as [sy|sy| |sy my ey];
    rewrite ?SFcompare_finite; simpl; intros Hx Hy; try congruence;
    try (destruct sx; auto; fail); try (destruct sy; auto; fail).
  - destruct sx, sy; auto.
  - destruct sx, sy; auto; order_cases; auto.
Qed.

Lemma SFcompare_Eq (x y : spec_float) :
  SFcompare x y = Some Eq ->
  x = y \/ exists s s', x = S754_zero s /\ y = S754_zero s'.
Proof.
  destruct x as [sx|sx| |sx mx ex], y as [sy|sy| |sy my ey];
    rewrite ?SFcompare_finite; simpl; try discriminate;
    try (destruct sx; discriminate); try (destruct sy; discriminate).
  - right. eauto.
  - destruct sx, sy; try discriminate; auto.
  - intros H. injection H as H. left.
    destruct sx, sy; try discriminate; order_cases.
Qed.

Lemma SFltb_Lt (x y : spec_float) : SFltb x y = true <-> SFcompare x y = Some Lt.
Proof.
  unfold SFltb. destruct (SFcompare x y) as [[ | | ]|]; split; congruence.
Qed.

Lemma SFcompare_not_nan (x y : spec_float) (c : comparison) :
  SFcompare x y = Some c -> x <> S754_nan /\ y <> S754_nan.
Proof.
  destruct x, y; simpl; try discriminate; split; discriminate.
Qed.

Lemma ltb_trans (x y z : float) :
  (x <? y)%float = true -> (y <? z)%float = true -> (x <? z)%float = true.
Proof.
  rewrite !ltb_spec, !SFltb_Lt. apply SFcompare_Lt_trans.
Qed.

Lemma ltb_irrefl (x : float) : (x <? x)%float = false.
Proof.
  destruct (x <? x)%float eqn:E; [|reflexivity].
  rewrite ltb_spec, SFltb_Lt in E. now apply SFcompare_Lt_irrefl in E.
Qed.

Lemma ltb_asym (x y : float) : (x <? y)%float = true -> (y <? x)%float = false.
Proof.
  intros H. destruct (y <? x)%float eqn:E; [|reflexivity].
  pose proof (ltb_trans _ _ _ H E) as C. now rewrite ltb_irrefl in C.
Qed.

(** Two numbers that each lie below something are ordered or equal. *)
Lemma ltb_total (x y a b : float) :
  (x <? a)%float = true -> (y <? b)%float = true ->
  (x <? y)%float = true \/ (y <? x)%float = true \/ (x =? y)%float = true.
Proof.
  rewrite !ltb_spec, eqb_spec, !SFltb_Lt. intros Hx Hy.
  apply SFcompare_not_nan in Hx, Hy.
  destruct (SFcompare_total (Prim2SF x) (Prim2SF y)) as [H|[H|H]];
    try tauto.
  right. right. unfold SFeqb. now rewrite H.
Qed.

(** Equal distances give the same confidence, also for the two zeros. *)
Lemma eqb_confidence (x y : float) :
  (x =? y)%float = true -> (1 - x)%float = (1 - y)%float.
Proof.
  rewrite eqb_spec. unfold SFeqb.
  destruct (SFcompare (Prim2SF x) (Prim2SF y)) as [[ | | ]|] eqn:E; try discriminate.
  intros _. apply SFcompare_Eq in E. destruct E as [E|(s & s' & E1 & E2)].
  - apply Prim2SF_inj in E. now subst.
  - rewrite <- (SF2Prim_Prim2SF x), <- (SF2Prim_Prim2SF y), E1, E2.
    destruct s, s'; reflexivity.
Qed.

(** ** The matcher *)

Section MatcherProperties.

Variable stringToDescriptor : string -> Completion Descriptor.
Variable faceDescriptor : Descriptor.

Local Abbreviation distance := (distanceTo stringToDescriptor faceDescriptor).
Local Abbreviation body := (loopBody stringToDescriptor faceDescriptor).
Local Abbreviation scan := (scanRecords stringToDescriptor faceDescriptor).
Local Abbreviation recognize := (recognizeFace stringToDescriptor faceDescriptor).

(** What follows the loop. *)
Definition outcomeOf (st : option AttendanceRow * float)
  : Completion RecognitionResult :=
  match st with
  | (Some bestRow, bestDistance) =>
      match metadataOf bestRow with
      | None => Returned notRecognized
      | Some employeeData =>
          Returned {| recognized := true;
                      employee := Some (employeeOf bestRow employeeData);
                      confidence := Some (1 - bestDistance)%float |}
      end
  | (None, _) => Returned notRecognized
  end.

Lemma recognizeFace_answered (records : list AttendanceRow) :
  recognize (answered records) = outcomeOf (scan records).
Proof.
  unfold recognizeFace, answered; simpl.
  destruct records as [|r records]; [reflexivity|].
  destruct (scan (r :: records)) as [[bestRow|] bestDistance]; reflexivity.
Qed.

Lemma loopBody_distance (bestMatch : option AttendanceRow) (bestDistance : float)
    (record : AttendanceRow) :
  body (bestMatch, bestDistance) record =
  match distance record with
  | Some d => if (d <? bestDistance)%float then (Some record, d)
              else (bestMatch, bestDistance)
  | None => (bestMatch, bestDistance)
  end.
Proof.
  unfold loopBody, distanceTo.
  destruct (compareRecord stringToDescriptor faceDescriptor record) as [[d|]|m];
    reflexivity.
Qed.

Lemma skipped_distance (record : AttendanceRow) :
  skipped stringToDescriptor faceDescriptor record -> distance record = None.
Proof.
  unfold distanceTo, compareRecord.
  intros [H|s m H E|s d H E L]; rewrite H; [reflexivity| |].
  - now rewrite E.
  - rewrite E. simpl. unfold calculateDistance.
    apply Nat.eqb_neq in L. now rewrite L.
Qed.

Lemma distance_metadata (record : AttendanceRow) (d : float) :
  distance record = Some d -> exists md, metadataOf record = Some md.
Proof.
  unfold distanceTo, compareRecord, storedDescriptor.
  destruct (metadataOf record) as [md|]; [eauto|discriminate].
Qed.

(** The loop from any starting pair: either nothing beat the start, or the
    result is a row of the list that did, and nothing in the list beats it. *)
Lemma scan_from (records : list AttendanceRow) :
  forall (bm0 : option AttendanceRow) (bd0 : float),
    let '(bm, bd) := fold_left body records (bm0, bd0) in
    (bm = bm0 /\ bd = bd0
     /\ forall x d, In x records -> distance x = Some d -> (d <? bd0)%float = false)
    \/ (exists r, In r records /\ bm = Some r /\ distance r = Some bd
                  /\ (bd <? bd0)%float = true
                  /\ forall x d, In x records -> distance x = Some d ->
                                 (d <? bd)%float = false).
Proof.
  induction records as [|r records IH]; intros bm0 bd0; cbn [fold_left].
  - left. split; [reflexivity|]. split; [reflexivity|]. intros x d [].
  - rewrite loopBody_distance.
    destruct (distance r) as [dr|] eqn:Er.
    + destruct (dr <? bd0)%float eqn:Lt.
      * specialize (IH (Some r) dr).
        destruct (fold_left body records (Some r, dr)) as [bm bd].
        right. destruct IH as [(-> & -> & All)|(w & Hw & -> & Dw & Lw & All)].
        -- exists r. split; [now left|]. do 3 (split; [easy|]).
           intros x d [<-|Hx] Dx; [|eauto].
           rewrite Er in Dx. injection Dx as <-. apply ltb_irrefl.
        -- exists w. split; [now right|]. do 2 (split; [easy|]).
           split; [eapply ltb_trans; eassumption|].
           intros x d [<-|Hx] Dx; [|eauto].
           rewrite Er in Dx. injection Dx as <-. now apply ltb_asym.
      * specialize (IH bm0 bd0).
        destruct (fold_left body records (bm0, bd0)) as [bm bd].
        destruct IH as [(-> & -> & All)|(w & Hw & -> & Dw & Lw & All)].
        -- left. do 2 (split; [reflexivity|]).
           intros x d [<-|Hx] Dx; [|eauto].
           rewrite Er in Dx. now injection Dx as <-.
        -- right. exists w. split; [now right|]. do 3 (split; [easy|]).
           intros x d [<-|Hx] Dx; [|eauto].
           rewrite Er in Dx. injection Dx as <-.
           destruct (dr <? bd)%float eqn:C; [|reflexivity].
           now rewrite (ltb_trans _ _ _ C Lw) in Lt.
    + specialize (IH bm0 bd0).
      destruct (fold_left body records (bm0, bd0)) as [bm bd].
      destruct IH as [(-> & -> & All)|(w & Hw & -> & Dw & Lw & All)].
      * left. do 2 (split; [reflexivity|]).
        intros x d [<-|Hx] Dx; [congruence|eauto].
      * right. exists w. split; [now right|]. do 3 (split; [easy|]).
        intros x d [<-|Hx] Dx; [congruence|eauto].
Qed.

(** Rows that do not beat the current best leave it in place. *)
Lemma scan_keeps (records : list AttendanceRow) (bm0 : option AttendanceRow)
    (bd0 : float) :
  (forall x d, In x records -> distance x = Some d -> (d <? bd0)%float = false) ->
  fold_left body records (bm0, bd0) = (bm0, bd0).
Proof.
  induction records as [|r records IH]; intros All; cbn [fold_left]; [reflexivity|].
  rewrite loopBody_distance.
  destruct (distance r) as [dr|] eqn:Er.
  - rewrite (All r dr (or_introl eq_refl) Er). apply IH. intros; eapply All; eauto.
    now right.
  - apply IH. intros; eapply All; eauto. now right.
Qed.

(** Rows that are neither closer than [m] nor tied with it leave the best
    distance above [m]. *)
Lemma scan_stays_above (m : float) (records : list AttendanceRow) :
  (forall x d, In x records -> distance x = Some d ->
               (d <? m)%float = false /\ (d =? m)%float = false) ->
  forall (bm0 : option AttendanceRow) (bd0 : float),
    (m <? bd0)%float = true ->
    (m <? snd (fold_left body records (bm0, bd0)))%float = true.
Proof.
  induction records as [|r records IH]; intros All bm0 bd0 Above; cbn [fold_left];
    [exact Above|].
  assert (All' : forall x d, In x records -> distance x = Some d ->
                             (d <? m)%float = false /\ (d =? m)%float = false)
    by (intros; eapply All; eauto; now right).
  rewrite loopBody_distance.
  destruct (distance r) as [dr|] eqn:Er; [|now apply IH].
  destruct (dr <? bd0)%float eqn:Lt; [|now apply IH].
  apply IH; [exact All'|].
  destruct (All r dr (or_introl eq_refl) Er) as [N1 N2].
  destruct (ltb_total _ _ _ _ Lt Above) as [C|[C|C]]; congruence.
Qed.

(** C2.  When the least distance over the rows that have one is below the
    threshold 0.6, [recognizeFace] answers [recognized = true] with the
    employee of a row at that distance and [confidence] one minus it; when
    no row has a distance below 0.6 it answers [recognized = false] with no
    employee. *)
Theorem recognizeFace_threshold (records : list AttendanceRow) :
  (forall m,
      minimumDistance stringToDescriptor faceDescriptor records m ->
      (m <? threshold)%float = true ->
      exists winner md,
        In winner records
        /\ metadataOf winner = Some md
        /\ (exists d, distance winner = Some d /\ (d =? m)%float = true)
        /\ recognize (answered records) =
           Returned {| recognized := true;
                       employee := Some (employeeOf winner md);
                       confidence := Some (1 - m)%float |})
  /\ ((forall r d, In r records -> distance r = Some d ->
                  (d <? threshold)%float = false) ->
      recognize (answered records) = Returned notRecognized).
Proof.
  split.
  - intros m [(rm & Hrm & Drm) Min] Below.
    rewrite recognizeFace_answered. unfold scanRecords.
    pose proof (scan_from records None threshold) as S.
    destruct (fold_left body records (None, threshold)) as [bm bd].
    destruct S as [(_ & _ & All)|(w & Hw & -> & Dw & Lw & All)].
    + rewrite (All rm m Hrm Drm) in Below. discriminate.
    + destruct (distance_metadata w bd Dw) as [md Hmd].
      exists w, md. split; [exact Hw|]. split; [exact Hmd|].
      assert (Tie : (bd =? m)%float = true).
      { destruct (ltb_total _ _ _ _ Lw Below) as [C|[C|C]]; [| |exact C].
        - now rewrite (Min w bd Hw Dw) in C.
        - now rewrite (All rm m Hrm Drm) in C. }
      split; [exists bd; split; assumption|].
      simpl. rewrite Hmd. now rewrite (eqb_confidence _ _ Tie).
  - intros All. rewrite recognizeFace_answered. unfold scanRecords.
    now rewrite (scan_keeps records None threshold All).
Qed.

(** C7.  A pass that finds no match never throws: an empty candidate set, a
    missing one, and a set whose every row is passed over (no descriptor, an
    undecodable one, or one of another length) all give [recognized = false];
    a row that is passed over changes nothing in the result of the pass; and
    an answered query always yields a result. *)
Theorem recognizeFace_no_match_is_no_error :
  recognize (answered []) = Returned notRecognized
  /\ recognize {| data := None; error := None |} = Returned notRecognized
  /\ (forall records,
        (forall r, In r records -> skipped stringToDescriptor faceDescriptor r) ->
        recognize (answered records) = Returned notRecognized)
  /\ (forall l1 r l2,
        skipped stringToDescriptor faceDescriptor r ->
        recognize (answered (l1 ++ r :: l2)) = recognize (answered (l1 ++ l2)))
  /\ (forall records, exists result, recognize (answered records) = Returned result).
Proof.
  split; [reflexivity|]. split; [reflexivity|]. split; [|split].
  - intros records All. rewrite recognizeFace_answered. unfold scanRecords.
    rewrite scan_keeps; [reflexivity|].
    intros x d Hx Dx. rewrite (skipped_distance x (All x Hx)) in Dx. discriminate.
  - intros l1 r l2 Hr. rewrite !recognizeFace_answered. unfold scanRecords.
    rewrite !fold_left_app. cbn [fold_left].
    destruct (fold_left body l1 (None, threshold)) as [bm bd].
    now rewrite loopBody_distance, (skipped_distance r Hr).
  - intros records. rewrite recognizeFace_answered.
    destruct (scan records) as [[bestRow|] bestDistance]; simpl; [|eauto].
    destruct (metadataOf bestRow); eauto.
Qed.

(** C8.  When [r] is the earliest row at the least distance [m], below the
    threshold, [recognizeFace] answers with the employee of [r], whatever
    rows at the same distance come after it. *)
Theorem recognizeFace_first_minimum_wins (l1 l2 : list AttendanceRow)
    (r : AttendanceRow) (m : float) :
  distance r = Some m ->
  (m <? threshold)%float = true ->
  (forall x d, In x (l1 ++ r :: l2) -> distance x = Some d -> (d <? m)%float = false) ->
  (forall x d, In x l1 -> distance x = Some d -> (d =? m)%float = false) ->
  exists md,
    metadataOf r = Some md
    /\ recognize (answered (l1 ++ r :: l2)) =
       Returned {| recognized := true;
                   employee := Some (employeeOf r md);
                   confidence := Some (1 - m)%float |}.
Proof.
  intros Dr Below Min First.
  destruct (distance_metadata r m Dr) as [md Hmd]. exists md. split; [exact Hmd|].
  rewrite recognizeFace_answered. unfold scanRecords.
  rewrite fold_left_app. cbn [fold_left].
  assert (Above : (m <? snd (fold_left body l1 (None, threshold)))%float = true).
  { apply scan_stays_above; [|exact Below].
    intros x d Hx Dx. split; [|eauto].
    apply (Min x d); [|exact Dx]. apply in_or_app. now left. }
  destruct (fold_left body l1 (None, threshold)) as [bm bd]. simpl in Above.
  rewrite loopBody_distance, Dr, Above.
  rewrite scan_keeps.
  - simpl. now rewrite Hmd.
  - intros x d Hx Dx. apply (Min x d); [|exact Dx].
    apply in_or_app. right. now right.
Qed.

(** C10, as the code has it.  The row the loop ends on always carries the
    metadata object its descriptor was read from, so [recognizeFace] answers
    [recognized = true] for it: the return for missing metadata is never
    taken. *)
Theorem best_match_carries_metadata (records : list AttendanceRow)
    (bestRow : AttendanceRow) (bestDistance : float) :
  scan records = (Some bestRow, bestDistance) ->
  (bestDistance <? threshold)%float = true
  /\ distance bestRow = Some bestDistance
  /\ exists md,
      metadataOf bestRow = Some md
      /\ recognize (answered records) =
         Returned {| recognized := true;
                     employee := Some (employeeOf bestRow md);
                     confidence := Some (1 - bestDistance)%float |}.
Proof.
  intros E. rewrite recognizeFace_answered, E.
  unfold scanRecords in E.
  pose proof (scan_from records None threshold) as S. rewrite E in S.
  destruct S as [(C & _)|(w & Hw & Ew & Dw & Lw & _)]; [discriminate|].
  injection Ew as ->. split; [exact Lw|]. split; [exact Dw|].
  destruct (distance_metadata w bestDistance Dw) as [md Hmd].
  exists md. split; [exact Hmd|]. simpl. now rewrite Hmd.
Qed.

End MatcherProperties.

(** C10, as claimed: no probe and candidate set has a closest row below the
    threshold that lacks the metadata object, since the distance of a row is
    measured on the descriptor stored in that object. *)
Lemma no_close_row_without_metadata :
  ~ exists (stringToDescriptor : string -> Completion Descriptor)
           (faceDescriptor : Descriptor) (records : list AttendanceRow)
           (closest : AttendanceRow) (d : float),
      In closest records
      /\ distanceTo stringToDescriptor faceDescriptor closest = Some d
      /\ (d <? threshold)%float = true
      /\ (forall x d', In x records ->
                       distanceTo stringToDescriptor faceDescriptor x = Some d' ->
                       (d' <? d)%float = false)
      /\ metadataOf closest = None
      /\ recognizeFace stringToDescriptor faceDescriptor (answered records)
         = Returned notRecognized.
Proof.
  intros (dec & probe & records & closest & d & _ & D & _ & _ & M & _).
  apply distance_metadata in D. destruct D as [md D]. congruence.
Qed.

(** *** A worked matching pass *)

(** A decoder for the descriptor strings of the example rows. *)
Definition exampleDecoder (s : string) : Completion Descriptor :=
  if String.eqb s "0.3,0.4" then Returned [0.3; 0.4]%float
  else if String.eqb s "1,1" then Returned [1; 1]%float
  else if String.eqb s "1" then Returned [1]%float
  else Thrown "Invalid descriptor string".

Definition registeredRow (rid who : string) (descriptor : option Js.Value)
  : AttendanceRow :=
  {| row_id := rid;
     user_id := Some rid;
     timestamp := Some 0%Z;
     status := Some "registered"%string;
     device_info :=
       Some {| metadata := Some {| name := Some who;
                                   employee_id := None;
                                   department := None;
                                   position := None;
                                   firebase_image_url := None;
                                   faceDescriptor := descriptor |};
               type := Some "webcam"%string;
               di_timestamp := None;
               registration := Some true;
               di_firebase_image_url := None;
               di_confidence := None;
               userAgent := None |} |}.

Definition rowFar : AttendanceRow := registeredRow "u1" "Far" (Some (Str "1,1")).
Definition rowAnn : AttendanceRow := registeredRow "u2" "Ann" (Some (Str "0.3,0.4")).
Definition rowBob : AttendanceRow := registeredRow "u3" "Bob" (Some (Str "0.3,0.4")).
Definition rowShort : AttendanceRow := registeredRow "u4" "Short" (Some (Str "1")).
Definition rowBroken : AttendanceRow := registeredRow "u5" "Broken" (Some (Str "oops")).
Definition rowBare : AttendanceRow := registeredRow "u6" "Bare" None.

Definition exampleProbe : Descriptor := [0; 0]%float.

Example exampleDistance :
  distanceTo exampleDecoder exampleProbe rowAnn = Some 0.5%float
  /\ distanceTo exampleDecoder exampleProbe rowBroken = None
  /\ distanceTo exampleDecoder exampleProbe rowShort = None.
Proof. vm_compute. repeat split. Qed.

(** Settles a statement about every row of an explicit list by running the
    distance of each. *)
Ltac each_row H E :=
  simpl in H;
  repeat (destruct H as [<-|H]);
  try contradiction;
  vm_compute in E; try discriminate;
  injection E as <-; vm_compute; reflexivity.

Lemma recognizeFace_threshold_witness :
  minimumDistance exampleDecoder exampleProbe
                  [rowFar; rowBroken; rowAnn; rowBob] 0.5%float
  /\ (0.5 <? threshold)%float = true
  /\ exists winner md,
      In winner [rowFar; rowBroken; rowAnn; rowBob]
      /\ metadataOf winner = Some md
      /\ (exists d, distanceTo exampleDecoder exampleProbe winner = Some d
                    /\ (d =? 0.5)%float = true)
      /\ recognizeFace exampleDecoder exampleProbe
                       (answered [rowFar; rowBroken; rowAnn; rowBob]) =
         Returned {| recognized := true;
                     employee := Some (employeeOf winner md);
                     confidence := Some (1 - 0.5)%float |}.
Proof.
  assert (Min : minimumDistance exampleDecoder exampleProbe
                  [rowFar; rowBroken; rowAnn; rowBob] 0.5%float).
  { split.
    - exists rowAnn. split; [simpl; tauto|vm_compute; reflexivity].
    - intros r d H E. each_row H E. }
  split; [exact Min|]. split; [vm_compute; reflexivity|].
  apply (proj1 (recognizeFace_threshold exampleDecoder exampleProbe
                  [rowFar; rowBroken; rowAnn; rowBob]) 0.5%float Min).
  vm_compute; reflexivity.
Defined.

Lemma recognizeFace_no_match_is_no_error_witness :
  (forall r, In r [rowShort; rowBroken; rowBare] ->
             skipped exampleDecoder exampleProbe r)
  /\ recognizeFace exampleDecoder exampleProbe
                   (answered [rowShort; rowBroken; rowBare])
     = Returned notRecognized
  /\ recognizeFace exampleDecoder exampleProbe (answered [rowAnn; rowBroken; rowBob])
     = recognizeFace exampleDecoder exampleProbe (answered [rowAnn; rowBob]).
Proof.
  assert (Short : skipped exampleDecoder exampleProbe rowShort).
  { apply (skipped_dimension _ _ _ "1"%string [1]%float); [reflexivity|reflexivity|].
    simpl. discriminate. }
  assert (Broken : skipped exampleDecoder exampleProbe rowBroken).
  { apply (skipped_undecodable _ _ _ "oops"%string "Invalid descriptor string"%string);
      reflexivity. }
  assert (Bare : skipped exampleDecoder exampleProbe rowBare).
  { apply skipped_no_descriptor. reflexivity. }
  assert (All : forall r, In r [rowShort; rowBroken; rowBare] ->
                          skipped exampleDecoder exampleProbe r).
  { intros r H. simpl in H. destruct H as [<-|[<-|[<-|[]]]]; assumption. }
  split; [exact All|]. split.
  - exact (proj1 (proj2 (proj2
             (recognizeFace_no_match_is_no_error exampleDecoder exampleProbe)))
             [rowShort; rowBroken; rowBare] All).
  - exact (proj1 (proj2 (proj2 (proj2
             (recognizeFace_no_match_is_no_error exampleDecoder exampleProbe))))
             [rowAnn] rowBroken [rowBob] Broken).
Defined.

Lemma recognizeFace_first_minimum_wins_witness :
  distanceTo exampleDecoder exampleProbe rowAnn = Some 0.5%float
  /\ distanceTo exampleDecoder exampleProbe rowBob = Some 0.5%float
  /\ exists md,
      metadataOf rowAnn = Some md
      /\ recognizeFace exampleDecoder exampleProbe
                       (answered ([rowFar; rowBroken] ++ rowAnn :: [rowBob; rowFar])) =
         Returned {| recognized := true;
                     employee := Some (employeeOf rowAnn md);
                     confidence := Some (1 - 0.5)%float |}.
Proof.
  split; [vm_compute; reflexivity|]. split; [vm_compute; reflexivity|].
  apply (recognizeFace_first_minimum_wins exampleDecoder exampleProbe
           [rowFar; rowBroken] [rowBob; rowFar] rowAnn 0.5%float).
  - vm_compute; reflexivity.
  - vm_compute; reflexivity.
  - intros x d H E. each_row H E.
  - intros x d H E. each_row H E.
Defined.

Lemma best_match_carries_metadata_witness :
  scanRecords exampleDecoder exampleProbe [rowFar; rowAnn; rowBare]
  = (Some rowAnn, 0.5%float)
  /\ exists md,
      metadataOf rowAnn = Some md
      /\ recognizeFace exampleDecoder exampleProbe (answered [rowFar; rowAnn; rowBare]) =
         Returned {| recognized := true;
                     employee := Some (employeeOf rowAnn md);
                     confidence := Some (1 - 0.5)%float |}.
Proof.
  assert (E : scanRecords exampleDecoder exampleProbe [rowFar; rowAnn; rowBare]
              = (Some rowAnn, 0.5%float)) by (vm_compute; reflexivity).
  split; [exact E|].
  exact (proj2 (proj2 (best_match_carries_metadata exampleDecoder exampleProbe
                         [rowFar; rowAnn; rowBare] rowAnn 0.5%float E))).
Defined.

(** ** The write paths *)

(** C6, as the code has it.  [recordAttendance] stores an unauthorized
    attempt under the status of a present event, with the caller's [userId]:
    the stored row is the one a present event with the same arguments gives.
    [storeUnrecognizedFace] stores the status "unauthorized" itself, with no
    user. *)
Theorem unauthorized_write_paths :
  (forall isoNow profileUsername userId confidence deviceInfo,
      recordAttendanceRow isoNow profileUsername userId unauthorized
                          confidence deviceInfo
      = recordAttendanceRow isoNow profileUsername userId present
                            confidence deviceInfo
      /\ ins_status (recordAttendanceRow isoNow profileUsername userId unauthorized
                                         confidence deviceInfo) = "present"%string
      /\ ins_user_id (recordAttendanceRow isoNow profileUsername userId unauthorized
                                          confidence deviceInfo) = Some userId
      /\ recordAttendance isoNow profileUsername None userId unauthorized
                          confidence deviceInfo
         = Returned (recordAttendanceRow isoNow profileUsername userId present
                                         confidence deviceInfo))
  /\ (forall isoNow agent imageData blob uploaded row,
        storeUnrecognizedFace isoNow agent imageData blob uploaded = Some row ->
        ins_status row = "unauthorized"%string /\ ins_user_id row = None).
Proof.
  split.
  - intros. repeat split.
  - intros isoNow agent imageData blob uploaded row.
    unfold storeUnrecognizedFace.
    destruct blob as [size|m]; [|discriminate].
    destruct (size =? 0)%N; [discriminate|].
    intros E. injection E as <-. split; reflexivity.
Qed.

Lemma unauthorized_write_paths_witness :
  exists row,
    storeUnrecognizedFace "2024-03-04T09:00:00.000Z" "Mozilla/5.0"
                          "data:image/png;base64,AAAA"
                          (Returned 4%N) (Returned "https://cdn/f.jpg"%string)
    = Some row
    /\ ins_status row = "unauthorized"%string
    /\ ins_user_id row = None.
Proof.
  eexists. split; [reflexivity|].
  apply (proj2 unauthorized_write_paths
           "2024-03-04T09:00:00.000Z"%string "Mozilla/5.0"%string
           "data:image/png;base64,AAAA"%string
           (Returned 4%N) (Returned "https://cdn/f.jpg"%string)).
  reflexivity.
Defined.

(** C6, as claimed: the row [storeUnrecognizedFace] writes for an
    unauthorized attempt does not carry the status of a present event. *)
Lemma storeUnrecognizedFace_is_not_normalized :
  option_map ins_status
    (storeUnrecognizedFace "2024-03-04T09:00:00.000Z" "Mozilla/5.0"
                           "data:image/png;base64,AAAA"
                           (Returned 4%N) (Returned "https://cdn/f.jpg"%string))
  = Some "unauthorized"%string
  /\ ins_status (recordAttendanceRow "2024-03-04T09:00:00.000Z" None "u2" present
                                     (Some 0.5%float) None)
     = "present"%string
  /\ "unauthorized"%string <> "present"%string.
Proof. repeat split. discriminate. Qed.

(** ** The historical fetch *)

(** What the two answered queries put into the two setters. *)
Definition fetchedDays (byId byUserId : QueryResponse) : list Date * list Date :=
  let allRecords := map lowerStatus (orEmpty (data byId) ++ orEmpty (data byUserId)) in
  (daysOrNone (filter isPresentRecord allRecords),
   daysOrNone (filter isLateRecord allRecords)).

Lemma fetch_fulfilled (byId byUserId : QueryResponse) :
  fetchAttendanceRecords (Fulfilled byId) (Fulfilled byUserId) =
  ([setAttendanceDays (Value (fst (fetchedDays byId byUserId)));
    setLateAttendanceDays (Value (snd (fetchedDays byId byUserId)))],
   Returned tt).
Proof.
  unfold fetchAttendanceRecords, fetchedDays.
  destruct (orEmpty (data byId) ++ orEmpty (data byUserId)); reflexivity.
Qed.

Lemma fetch_rejected (recordsById recordsByUserId : Settled) (message : string) :
  recordsById = Rejected message
  \/ (exists byId, recordsById = Fulfilled byId)
     /\ recordsByUserId = Rejected message ->
  fetchAttendanceRecords recordsById recordsByUserId = ([], Thrown message).
Proof.
  intros [->|[[byId ->] ->]]; reflexivity.
Qed.

(** A query that failed the way supabase reports it: no data, an error. *)
Definition failedQuery (message : string) : Settled :=
  Fulfilled {| data := None; error := Some message |}.

(** C5, on the code.  When both queries come back with an error instead of
    data, [fetchAttendanceRecords] returns normally, [loadAttendanceRecords]
    shows no toast, and the present and late days held before are cleared. *)
Theorem failed_fetch_clears_calendar :
  forall (tzOffset today : Z) (message1 message2 : string) (st : CalendarState),
    fetchAttendanceRecords (failedQuery message1) (failedQuery message2)
    = ([setAttendanceDays (Value []); setLateAttendanceDays (Value [])], Returned tt)
    /\ snd (loadAttendanceRecords (failedQuery message1) (failedQuery message2)) = None
    /\ attendanceDays (step tzOffset today
                           (RecordsLoaded (failedQuery message1) (failedQuery message2))
                           st) = []
    /\ lateAttendanceDays (step tzOffset today
                               (RecordsLoaded (failedQuery message1) (failedQuery message2))
                               st) = [].
Proof.
  intros. split; [reflexivity|]. split; [reflexivity|].
  unfold step, commit, updatesOf, loadAttendanceRecords, failedQuery,
    fetchAttendanceRecords, absentDaysEffect; simpl.
  destruct (isNil (workingDays st)); simpl; split; reflexivity.
Qed.

(** A query that throws, by contrast, reaches the caller as a toast and
    leaves every state cell as it was. *)
Lemma rejected_fetch_keeps_calendar (tzOffset today : Z) (message : string)
    (recordsByUserId : Settled) (st : CalendarState) :
  snd (loadAttendanceRecords (Rejected message) recordsByUserId) <> None
  /\ step tzOffset today (RecordsLoaded (Rejected message) recordsByUserId) st = st.
Proof.
  split; [discriminate|reflexivity].
Qed.

(** ** The calendar *)

(** The dates the live effect collects for a face: [presentDates] and
    [lateDates]. *)
Definition liveDates (tzOffset : Z) (selectedFaceId : option string)
    (recentAttendance : list RecentRecord) : list Date * list Date :=
  match nonEmptyString selectedFaceId with
  | None => ([], [])
  | Some faceId => collectDates tzOffset (filter (matchesFace faceId) recentAttendance)
  end.

(** What the absent-day effect leaves in [absentDays]. *)
Definition derivedAbsent (tzOffset : Z) (today : Date)
    (working presentDays lateDays old : list Date) : list Date :=
  if negb (isNil working) && (negb (isNil presentDays) || negb (isNil lateDays))
  then filter (fun workDay =>
                 if (workDay >? today)%Z then false
                 else negb (isDateInArray tzOffset workDay presentDays)
                      && negb (isDateInArray tzOffset workDay lateDays))
              working
  else old.

Section CalendarProperties.

Variable tzOffset : Z.

Local Abbreviation inArray := (isDateInArray tzOffset).
Local Abbreviation merge := (mergeDates tzOffset).

Lemma isNil_nil {A : Type} (l : list A) : isNil l = true <-> l = [].
Proof. destruct l; simpl; split; congruence. Qed.

Lemma applyUpdates_app (st : CalendarState) (us vs : list StateUpdate) :
  applyUpdates st (us ++ vs) = applyUpdates (applyUpdates st us) vs.
Proof. apply fold_left_app. Qed.

(** *** Merging dates into a list *)

Lemma inArray_app (d : Date) (l1 l2 : list Date) :
  inArray d (l1 ++ l2) = inArray d l1 || inArray d l2.
Proof. apply existsb_app. Qed.

Lemma inArray_self (d : Date) (l : list Date) : In d l -> inArray d l = true.
Proof.
  intros H. apply existsb_exists. exists d. split; [exact H|apply Z.eqb_refl].
Qed.

Lemma merge_keeps (dates : list Date) :
  forall prev d, In d prev -> In d (merge dates prev).
Proof.
  induction dates as [|x dates IH]; intros prev d H; simpl; [exact H|].
  apply IH. destruct (inArray x prev); [exact H|].
  apply in_or_app. now left.
Qed.

Lemma merge_mono (dates : list Date) :
  forall prev d, inArray d prev = true -> inArray d (merge dates prev) = true.
Proof.
  induction dates as [|x dates IH]; intros prev d H; simpl; [exact H|].
  apply IH. destruct (inArray x prev); [exact H|].
  rewrite inArray_app, H. reflexivity.
Qed.

Lemma merge_adds (dates : list Date) :
  forall prev d, In d dates -> inArray d (merge dates prev) = true.
Proof.
  induction dates as [|x dates IH]; intros prev d H; simpl; [destruct H|].
  destruct H as [->|H]; [|now apply IH].
  apply merge_mono. destruct (inArray d prev) eqn:E; [exact E|].
  rewrite inArray_app, E. simpl. now rewrite Z.eqb_refl.
Qed.

Lemma merge_covered (dates prev : list Date) :
  (forall d, In d dates -> inArray d prev = true) -> merge dates prev = prev.
Proof.
  induction dates as [|x dates IH]; intros H; simpl; [reflexivity|].
  rewrite (H x (or_introl eq_refl)). apply IH. intros d Hd. apply H. now right.
Qed.

(** *** The live effect, cell by cell *)

Lemma liveEffect_shape (selectedFaceId : option string)
    (recentAttendance : list RecentRecord) (selected : option Date) :
  exists daily,
    (daily = [] \/ exists l, daily = [setDailyAttendance l])
    /\ recentAttendanceEffect tzOffset selectedFaceId recentAttendance selected =
       (if isNil (fst (liveDates tzOffset selectedFaceId recentAttendance)) then []
        else [setAttendanceDays
                (Updater (merge (fst (liveDates tzOffset selectedFaceId
                                                recentAttendance))))])
       ++ (if isNil (snd (liveDates tzOffset selectedFaceId recentAttendance)) then []
           else [setLateAttendanceDays
                   (Updater (merge (snd (liveDates tzOffset selectedFaceId
                                                   recentAttendance))))])
       ++ daily.
Proof.
  unfold recentAttendanceEffect, liveDates.
  destruct (nonEmptyString selectedFaceId) as [faceId|];
    [|exists []; split; [now left|reflexivity]].
  destruct recentAttendance as [|r recent];
    [exists []; split; [now left|reflexivity]|].
  cbn [isNil].
  destruct (filter (matchesFace faceId) (r :: recent)) as [|f faceRecords] eqn:F;
    [exists []; split; [now left|reflexivity]|].
  cbn [isNil].
  destruct (collectDates tzOffset (f :: faceRecords)) as [presentDates lateDates].
  cbn [fst snd].
  destruct selected as [selected|];
    [|exists []; split; [now left|reflexivity]].
  match goal with
  | |- context [isNil (filter ?g ?l)] => destruct (filter g l) as [|e es]
  end.
  - exists []. split; [now left|reflexivity].
  - eexists. split; [right; eexists; reflexivity|reflexivity].
Qed.

Lemma liveEffect_cells (selectedFaceId : option string)
    (recentAttendance : list RecentRecord) (st : CalendarState) :
  let live := liveDates tzOffset selectedFaceId recentAttendance in
  let us := recentAttendanceEffect tzOffset selectedFaceId recentAttendance
                                   (selectedDate st) in
  attendanceDays (applyUpdates st us) = merge (fst live) (attendanceDays st)
  /\ lateAttendanceDays (applyUpdates st us) = merge (snd live) (lateAttendanceDays st)
  /\ absentDays (applyUpdates st us) = absentDays st
  /\ workingDays (applyUpdates st us) = workingDays st
  /\ existsb touchesAbsentDeps us = negb (isNil (fst live)) || negb (isNil (snd live)).
Proof.
  intros live us.
  destruct (liveEffect_shape selectedFaceId recentAttendance (selectedDate st))
    as (daily & Hd & E).
  subst us. rewrite E. fold live.
  destruct (fst live) as [|p ps], (snd live) as [|l ls];
    destruct Hd as [->|[x ->]]; cbn; repeat split.
Qed.

(** *** A batch and the effect after it, cell by cell *)

Lemma absentEffect_cells (today : Date) (st : CalendarState) :
  let st' := applyUpdates st (absentDaysEffect tzOffset today st) in
  attendanceDays st' = attendanceDays st
  /\ lateAttendanceDays st' = lateAttendanceDays st
  /\ workingDays st' = workingDays st
  /\ absentDays st' = derivedAbsent tzOffset today (workingDays st) (attendanceDays st)
                                    (lateAttendanceDays st) (absentDays st).
Proof.
  unfold absentDaysEffect, derivedAbsent.
  destruct (negb (isNil (workingDays st))
            && (negb (isNil (attendanceDays st))
                || negb (isNil (lateAttendanceDays st))));
    cbn; repeat split.
Qed.

Lemma commit_cells (today : Date) (us : list StateUpdate) (st : CalendarState) :
  let st' := applyUpdates st us in
  attendanceDays (commit tzOffset today us st) = attendanceDays st'
  /\ lateAttendanceDays (commit tzOffset today us st) = lateAttendanceDays st'
  /\ workingDays (commit tzOffset today us st) = workingDays st'
  /\ absentDays (commit tzOffset today us st) =
     if existsb touchesAbsentDeps us
     then derivedAbsent tzOffset today (workingDays st') (attendanceDays st')
                        (lateAttendanceDays st') (absentDays st')
     else absentDays st'.
Proof.
  intros st'. unfold commit. fold st'.
  destruct (existsb touchesAbsentDeps us); [|repeat split].
  apply absentEffect_cells.
Qed.

Lemma loaded_cells (today : Date) (byId byUserId : QueryResponse) (st : CalendarState) :
  let st' := step tzOffset today (RecordsLoaded (Fulfilled byId) (Fulfilled byUserId)) st in
  attendanceDays st' = fst (fetchedDays byId byUserId)
  /\ lateAttendanceDays st' = snd (fetchedDays byId byUserId)
  /\ workingDays st' = workingDays st
  /\ absentDays st' = derivedAbsent tzOffset today (workingDays st)
                                    (fst (fetchedDays byId byUserId))
                                    (snd (fetchedDays byId byUserId)) (absentDays st).
Proof.
  intros st'. subst st'. unfold step, updatesOf, loadAttendanceRecords.
  rewrite fetch_fulfilled. cbn [fst].
  match goal with |- context [commit _ _ ?us _] =>
    destruct (commit_cells today us st) as (P & L & W & A) end.
  rewrite P, L, W, A. cbn. repeat split.
Qed.

Lemma live_cells (today : Date) (selectedFaceId : option string)
    (recentAttendance : list RecentRecord) (st : CalendarState) :
  let live := liveDates tzOffset selectedFaceId recentAttendance in
  let st' := step tzOffset today
                  (RecentAttendanceChanged selectedFaceId recentAttendance) st in
  attendanceDays st' = merge (fst live) (attendanceDays st)
  /\ lateAttendanceDays st' = merge (snd live) (lateAttendanceDays st)
  /\ workingDays st' = workingDays st
  /\ absentDays st' =
     if negb (isNil (fst live)) || negb (isNil (snd live))
     then derivedAbsent tzOffset today (workingDays st)
                        (merge (fst live) (attendanceDays st))
                        (merge (snd live) (lateAttendanceDays st)) (absentDays st)
     else absentDays st.
Proof.
  intros live st'. subst st'. unfold step, updatesOf.
  destruct (liveEffect_cells selectedFaceId recentAttendance st)
    as (P' & L' & A' & W' & T').
  match goal with |- context [commit _ _ ?us _] =>
    destruct (commit_cells today us st) as (P & L & W & A) end.
  rewrite P, L, W, A, P', L', A', W', T'. repeat split.
Qed.

Lemma derivedAbsent_again (today : Date) (w p l old : list Date) :
  derivedAbsent tzOffset today w p l (derivedAbsent tzOffset today w p l old)
  = derivedAbsent tzOffset today w p l old.
Proof.
  unfold derivedAbsent.
  destruct (negb (isNil w) && (negb (isNil p) || negb (isNil l))); reflexivity.
Qed.

Lemma covered_by_nil (dates : list Date) :
  (forall d, In d dates -> inArray d [] = true) -> dates = [].
Proof.
  destruct dates as [|d dates]; [reflexivity|].
  intros H. specialize (H d (or_introl eq_refl)). discriminate.
Qed.

(** C1, as the code has it.  A historical fetch replaces the present and
    late days by its own result, whatever live events were merged before;
    live events merged after a fetch keep every fetched date and add their
    own.  So the two orders end in the same present, late and absent days
    when every date the live events contribute already lies, by calendar
    date, in the fetched list of its kind. *)
Theorem merge_orders (today : Date) (byId byUserId : QueryResponse)
    (selectedFaceId : option string) (recentAttendance : list RecentRecord)
    (st : CalendarState) :
  let fetched := fetchedDays byId byUserId in
  let live := liveDates tzOffset selectedFaceId recentAttendance in
  let hl := historicalThenLive tzOffset today (Fulfilled byId) (Fulfilled byUserId)
                               selectedFaceId recentAttendance st in
  let lh := liveThenHistorical tzOffset today (Fulfilled byId) (Fulfilled byUserId)
                               selectedFaceId recentAttendance st in
  (attendanceDays lh = fst fetched /\ lateAttendanceDays lh = snd fetched)
  /\ ((forall d, In d (fst fetched) -> In d (attendanceDays hl))
      /\ (forall d, In d (snd fetched) -> In d (lateAttendanceDays hl))
      /\ (forall d, In d (fst live) -> inArray d (attendanceDays hl) = true)
      /\ (forall d, In d (snd live) -> inArray d (lateAttendanceDays hl) = true))
  /\ ((forall d, In d (fst live) -> inArray d (fst fetched) = true) ->
      (forall d, In d (snd live) -> inArray d (snd fetched) = true) ->
      attendanceDays hl = attendanceDays lh
      /\ lateAttendanceDays hl = lateAttendanceDays lh
      /\ absentDays hl = absentDays lh).
Proof.
  intros fetched live hl lh.
  unfold historicalThenLive in hl. unfold liveThenHistorical in lh.
  set (h := step tzOffset today (RecordsLoaded (Fulfilled byId) (Fulfilled byUserId)) st)
    in *.
  set (l := step tzOffset today
                 (RecentAttendanceChanged selectedFaceId recentAttendance) st) in *.
  destruct (loaded_cells today byId byUserId st) as (Ph & Lh & Wh & Ah).
  destruct (live_cells today selectedFaceId recentAttendance st) as (Pl & Ll & Wl & Al).
  destruct (loaded_cells today byId byUserId l) as (Plh & Llh & Wlh & Alh).
  destruct (live_cells today selectedFaceId recentAttendance h) as (Phl & Lhl & Whl & Ahl).
  fold h in Ph, Lh, Wh, Ah. fold l in Pl, Ll, Wl, Al.
  fold l lh fetched in Plh, Llh, Wlh, Alh. fold h hl live in Phl, Lhl, Whl, Ahl.
  fold fetched in Ph, Lh, Ah. fold live in Pl, Ll, Al.
  split; [split; assumption|]. split.
  - rewrite Phl, Lhl, Ph, Lh.
    split; [intros d; apply merge_keeps|].
    split; [intros d; apply merge_keeps|].
    split; intros d; apply merge_adds.
  - intros CoverP CoverL.
    rewrite Phl, Lhl, Plh, Llh, Ph, Lh.
    rewrite (merge_covered _ _ CoverP), (merge_covered _ _ CoverL).
    split; [reflexivity|]. split; [reflexivity|].
    rewrite Ahl, Alh, Ph, Lh, Wh, Ah, Wl.
    rewrite (merge_covered _ _ CoverP), (merge_covered _ _ CoverL).
    rewrite derivedAbsent_again.
    assert (Same : derivedAbsent tzOffset today (workingDays st) (fst fetched)
                                 (snd fetched) (absentDays l)
                   = derivedAbsent tzOffset today (workingDays st) (fst fetched)
                                   (snd fetched) (absentDays st)).
    { unfold derivedAbsent.
      destruct (isNil (workingDays st)) eqn:W; cbn [negb andb].
      - rewrite Al. unfold derivedAbsent. rewrite W. cbn [negb andb].
        destruct (negb (isNil (fst live)) || negb (isNil (snd live))); reflexivity.
      - destruct (fst fetched) as [|p ps] eqn:Fp; [|reflexivity].
        destruct (snd fetched) as [|q qs] eqn:Fl; [|reflexivity].
        cbn [isNil negb orb].
        rewrite Al, (covered_by_nil _ CoverP), (covered_by_nil _ CoverL).
        reflexivity. }
    rewrite Same.
    destruct (negb (isNil (fst live)) || negb (isNil (snd live))); reflexivity.
Qed.

(** *** Rows of unauthorized attempts *)

Lemma unauthorized_status (s : string) :
  toLowerCase s = "unauthorized"%string ->
  isPresentStatus s = false /\ isLateStatus s = false.
Proof.
  intros H. unfold isPresentStatus, isLateStatus. rewrite H.
  destruct (String.eqb_spec s "Present") as [->|_]; [discriminate|].
  destruct (String.eqb_spec s "Late") as [->|_]; [discriminate|].
  split; reflexivity.
Qed.

Lemma collectDate_unauthorized (acc : list Date * list Date) (record : RecentRecord) :
  toLowerCase (rr_status record) = "unauthorized"%string ->
  collectDate tzOffset acc record = acc.
Proof.
  intros H. destruct (unauthorized_status _ H) as [P L].
  unfold collectDate. destruct acc as [presentDates lateDates].
  rewrite P, L. now destruct (_ || _).
Qed.

Lemma liveDates_unauthorized (selectedFaceId : option string)
    (recent1 recent2 : list RecentRecord) (record : RecentRecord) :
  toLowerCase (rr_status record) = "unauthorized"%string ->
  liveDates tzOffset selectedFaceId (recent1 ++ record :: recent2)
  = liveDates tzOffset selectedFaceId (recent1 ++ recent2).
Proof.
  intros H. unfold liveDates.
  destruct (nonEmptyString selectedFaceId) as [faceId|]; [|reflexivity].
  rewrite !filter_app. cbn [filter].
  destruct (matchesFace faceId record); [|reflexivity].
  unfold collectDates. rewrite !fold_left_app. cbn [fold_left].
  now rewrite collectDate_unauthorized.
Qed.

(** C4.  A row with status "unauthorized" (in any letter case) and no user
    is never counted for an identity.  The face id given to the hook names
    an identity, so it is not the key of this row: the fetch for it makes
    the setter calls it makes without the row; and in the live feed such a
    row never adds a present day, whatever the face id. *)
Theorem unauthorized_row_not_attributed
    (table1 table2 : list AttendanceRow) (row : AttendanceRow) (faceId : string)
    (recent1 recent2 : list RecentRecord) (record : RecentRecord)
    (selectedFaceId : option string) (today : Date) (st : CalendarState) :
  user_id row = None ->
  option_map toLowerCase (status row) = Some "unauthorized"%string ->
  row_id row <> faceId ->
  rr_user_id record = None ->
  toLowerCase (rr_status record) = "unauthorized"%string ->
  fetchFromTable (table1 ++ row :: table2) faceId = fetchFromTable (table1 ++ table2) faceId
  /\ attendanceDays (step tzOffset today
                          (RecentAttendanceChanged selectedFaceId
                                                   (recent1 ++ record :: recent2)) st)
     = attendanceDays (step tzOffset today
                            (RecentAttendanceChanged selectedFaceId (recent1 ++ recent2))
                            st).
Proof.
  intros NoUser _ NotId _ Unauthorized. split.
  - unfold fetchFromTable, selectById, selectByUserId.
    rewrite !filter_app. cbn [filter]. rewrite NoUser.
    apply String.eqb_neq in NotId. now rewrite NotId.
  - destruct (live_cells today selectedFaceId (recent1 ++ record :: recent2) st)
      as (P1 & _).
    destruct (live_cells today selectedFaceId (recent1 ++ recent2) st) as (P2 & _).
    rewrite P1, P2. now rewrite liveDates_unauthorized.
Qed.

(** *** The states the hook settles in *)

Lemma derivedAbsent_classifies (today : Date) (w p l old : list Date) :
  p <> [] \/ l <> [] ->
  w <> [] ->
  (forall a, In a (derivedAbsent tzOffset today w p l old) ->
             inArray a p = false /\ inArray a l = false)
  /\ (forall d, In d w -> (d <= today)%Z ->
                inArray d p = true \/ inArray d l = true
                \/ In d (derivedAbsent tzOffset today w p l old)).
Proof.
  intros Some_ W. unfold derivedAbsent.
  assert (G : negb (isNil w) && (negb (isNil p) || negb (isNil l)) = true).
  { destruct w; [congruence|]. destruct p, l; try reflexivity.
    destruct Some_; congruence. }
  rewrite G. split.
  - intros a H. apply filter_In in H. destruct H as [_ H].
    destruct (a >? today)%Z; [discriminate|].
    apply andb_true_iff in H. destruct H as [H1 H2].
    apply negb_true_iff in H1, H2. now split.
  - intros d Hd Le.
    destruct (inArray d p) eqn:P; [now left|].
    destruct (inArray d l) eqn:L; [right; now left|].
    right. right. apply filter_In. split; [exact Hd|].
    assert (N : (d >? today)%Z = false) by (rewrite Z.gtb_ltb; apply Z.ltb_ge; lia).
    rewrite N, P, L. reflexivity.
Qed.

Lemma subscriptionEffect_touches (selectedFaceId : option string)
    (generated : list Date) :
  existsb touchesAbsentDeps (subscriptionEffect selectedFaceId generated) = true.
Proof.
  unfold subscriptionEffect. now destruct (nonEmptyString selectedFaceId).
Qed.

Lemma dailyEffect_cells (selectedFaceId : option string) (selected : option Date)
    (st : CalendarState) :
  let st' := applyUpdates st (dailyAttendanceEffect selectedFaceId selected) in
  attendanceDays st' = attendanceDays st
  /\ lateAttendanceDays st' = lateAttendanceDays st
  /\ workingDays st' = workingDays st
  /\ absentDays st' = absentDays st
  /\ existsb touchesAbsentDeps (dailyAttendanceEffect selectedFaceId selected) = false.
Proof.
  unfold dailyAttendanceEffect.
  destruct (nonEmptyString selectedFaceId), selected; cbn; repeat split.
Qed.

Lemma untouched_cells (ev : HookEvent) (st : CalendarState) :
  existsb touchesAbsentDeps (updatesOf tzOffset ev st) = false ->
  let st' := applyUpdates st (updatesOf tzOffset ev st) in
  attendanceDays st' = attendanceDays st
  /\ lateAttendanceDays st' = lateAttendanceDays st
  /\ workingDays st' = workingDays st
  /\ absentDays st' = absentDays st.
Proof.
  destruct ev as [selectedFaceId recent generated|selectedFaceId recent
                 |byId byUserId|d selectedFaceId recent|l].
  - cbn [updatesOf]. rewrite !existsb_app, subscriptionEffect_touches.
    cbn [orb]. rewrite orb_true_r. discriminate.
  - cbn [updatesOf]. intros T.
    destruct (liveEffect_cells selectedFaceId recent st) as (P & L & A & W & T').
    rewrite T' in T. apply orb_false_iff in T. destruct T as [T1 T2].
    apply negb_false_iff, isNil_nil in T1, T2.
    cbv zeta. rewrite P, L, A, W, T1, T2. repeat split.
  - cbn [updatesOf]. unfold loadAttendanceRecords.
    destruct byId as [r1|m1]; [|intros _; cbn; repeat split].
    destruct byUserId as [r2|m2]; [|intros _; cbn; repeat split].
    rewrite fetch_fulfilled. discriminate.
  - cbn [updatesOf existsb touchesAbsentDeps orb]. rewrite existsb_app. intros T.
    apply orb_false_iff in T. destruct T as [T _].
    set (dated := applyUpdate st (setSelectedDate d)).
    destruct (liveEffect_cells selectedFaceId recent dated) as (P & L & A & W & T').
    change (selectedDate dated) with d in P, L, A, W, T'.
    rewrite T' in T. apply orb_false_iff in T. destruct T as [T1 T2].
    apply negb_false_iff, isNil_nil in T1, T2.
    cbv zeta. cbn [applyUpdates fold_left]. fold dated.
    change (fold_left applyUpdate ?us ?s) with (applyUpdates s us).
    rewrite applyUpdates_app.
    destruct (dailyEffect_cells selectedFaceId d
                (applyUpdates dated
                   (recentAttendanceEffect tzOffset selectedFaceId recent d)))
      as (P' & L' & W' & A' & _).
    rewrite P', L', W', A', P, L, A, W, T1, T2. repeat split.
  - intros _. cbn. repeat split.
Qed.

(** C3, as the code has it.  In every state the hook settles in, the
    absent-day effect having run after the last change of the present, late
    or working days, and with working days: no absent day shares a calendar
    date with a present or a late day; and when there is a present or a late
    day at all, every working day up to the clock reading of that last run
    is present, late or absent. *)
Theorem classification_invariant (derivedAt : Date) (st : CalendarState) :
  settled tzOffset derivedAt st ->
  workingDays st <> [] ->
  (forall a, In a (absentDays st) ->
             inArray a (attendanceDays st) = false
             /\ inArray a (lateAttendanceDays st) = false)
  /\ (attendanceDays st <> [] \/ lateAttendanceDays st <> [] ->
      forall d, In d (workingDays st) -> (d <= derivedAt)%Z ->
                inArray d (attendanceDays st) = true
                \/ inArray d (lateAttendanceDays st) = true
                \/ In d (absentDays st)).
Proof.
  induction 1 as [now|derivedAt now st ev R IH]; [intros W; now elim W|].
  unfold step.
  destruct (commit_cells now (updatesOf tzOffset ev st) st) as (P & L & W & A).
  rewrite P, L, W, A. clear P L W A.
  destruct (existsb touchesAbsentDeps (updatesOf tzOffset ev st)) eqn:T.
  - set (st' := applyUpdates st (updatesOf tzOffset ev st)). intros W.
    destruct (attendanceDays st') as [|p ps] eqn:P.
    + destruct (lateAttendanceDays st') as [|l ls] eqn:L.
      * split; [intros a _; split; reflexivity|]. intros [C|C]; now elim C.
      * rewrite <- L. split; [|intros _];
          apply derivedAbsent_classifies; auto; right; rewrite L; discriminate.
    + rewrite <- P. split; [|intros _];
        apply derivedAbsent_classifies; auto; left; rewrite P; discriminate.
  - destruct (untouched_cells ev st T) as (P & L & W & A).
    rewrite P, L, W, A. exact IH.
Qed.

End CalendarProperties.

Lemma settled_after (tzOffset : Z) (derivedAt now derivedAt' : Date)
    (st st' : CalendarState) (ev : HookEvent) :
  settled tzOffset derivedAt st ->
  (if existsb touchesAbsentDeps (updatesOf tzOffset ev st) then now else derivedAt)
  = derivedAt' ->
  step tzOffset now ev st = st' ->
  settled tzOffset derivedAt' st'.
Proof. intros R <- <-. now constructor. Qed.

(** *** A worked week *)

(** Indian Standard Time, and three working days of March 2024 at local
    midnight, Monday the 4th first. *)
Definition exampleZone : Z := 19800000.
Definition monday : Date := 1709490600000%Z.
Definition tuesday : Date := (monday + msPerDay)%Z.
Definition wednesday : Date := (tuesday + msPerDay)%Z.
Definition hour : Z := 3600000.
(** The clock: Wednesday, ten in the morning. *)
Definition exampleNow : Date := (wednesday + 10 * hour)%Z.

Definition storedRow (rid : string) (uid : option string) (at_ : Date) (st : string)
  : AttendanceRow :=
  {| row_id := rid; user_id := uid; timestamp := Some at_; status := Some st;
     device_info := None |}.

Definition rowMondayPresent : AttendanceRow :=
  storedRow "a1" (Some "u2"%string) (monday + 9 * hour)%Z "present".
Definition rowMondayLate : AttendanceRow :=
  storedRow "a3" (Some "u2"%string) (monday + 11 * hour)%Z "late".
Definition rowTuesdayPresent : AttendanceRow :=
  storedRow "a2" (Some "u2"%string) (tuesday + 9 * hour)%Z "present".
Definition rowUnauthorized : AttendanceRow :=
  storedRow "a9" None (tuesday + 15 * hour)%Z "Unauthorized".

Definition liveTuesdayPresent : RecentRecord :=
  {| rr_id := "a2"; rr_user_id := Some "u2"%string;
     rr_timestamp := (tuesday + 9 * hour)%Z; rr_status := "present" |}.
Definition liveUnauthorized : RecentRecord :=
  {| rr_id := "a9"; rr_user_id := None;
     rr_timestamp := (tuesday + 15 * hour)%Z; rr_status := "Unauthorized" |}.

(** The hook once face "u2" is selected. *)
Definition selectedState : CalendarState :=
  step exampleZone exampleNow
       (FaceChanged (Some "u2"%string) [] [monday; tuesday; wednesday])
       (initialState exampleNow).

Lemma selectedState_settled : settled exampleZone exampleNow selectedState.
Proof.
  apply (settled_after exampleZone exampleNow exampleNow exampleNow
           (initialState exampleNow) selectedState
           (FaceChanged (Some "u2"%string) [] [monday; tuesday; wednesday]));
    [apply settled_mount|reflexivity|reflexivity].
Qed.

(** C1, as claimed.  The fetch returns Monday's row, the live feed brings
    Tuesday's: merged after the fetch, Tuesday stays; merged before it, the
    fetch removes Tuesday again, and the absent days differ too. *)
Lemma merge_orders_differ :
  let hl := historicalThenLive exampleZone exampleNow
              (Fulfilled (answered [])) (Fulfilled (answered [rowMondayPresent]))
              (Some "u2"%string) [liveTuesdayPresent] selectedState in
  let lh := liveThenHistorical exampleZone exampleNow
              (Fulfilled (answered [])) (Fulfilled (answered [rowMondayPresent]))
              (Some "u2"%string) [liveTuesdayPresent] selectedState in
  attendanceDays hl = [monday + 9 * hour; tuesday]%Z
  /\ attendanceDays lh = [monday + 9 * hour]%Z
  /\ absentDays hl = [wednesday]
  /\ absentDays lh = [tuesday; wednesday]
  /\ isDateInArray exampleZone (tuesday + 9 * hour)%Z
       (attendanceDays (step exampleZone exampleNow
                             (RecentAttendanceChanged (Some "u2"%string)
                                                      [liveTuesdayPresent])
                             selectedState)) = true
  /\ isDateInArray exampleZone (tuesday + 9 * hour)%Z (attendanceDays lh) = false.
Proof. vm_compute. repeat split. Qed.

Lemma merge_orders_witness :
  let fetched := fetchedDays (answered [])
                             (answered [rowMondayPresent; rowTuesdayPresent]) in
  let live := liveDates exampleZone (Some "u2"%string) [liveTuesdayPresent] in
  let hl := historicalThenLive exampleZone exampleNow
              (Fulfilled (answered []))
              (Fulfilled (answered [rowMondayPresent; rowTuesdayPresent]))
              (Some "u2"%string) [liveTuesdayPresent] selectedState in
  let lh := liveThenHistorical exampleZone exampleNow
              (Fulfilled (answered []))
              (Fulfilled (answered [rowMondayPresent; rowTuesdayPresent]))
              (Some "u2"%string) [liveTuesdayPresent] selectedState in
  (forall d, In d (fst live) -> isDateInArray exampleZone d (fst fetched) = true)
  /\ (forall d, In d (snd live) -> isDateInArray exampleZone d (snd fetched) = true)
  /\ attendanceDays hl = attendanceDays lh
  /\ lateAttendanceDays hl = lateAttendanceDays lh
  /\ absentDays hl = absentDays lh.
Proof.
  intros fetched live hl lh.
  assert (CoverP : forall d, In d (fst live) ->
                             isDateInArray exampleZone d (fst fetched) = true).
  { intros d H. vm_compute in H. destruct H as [<-|[]]. vm_compute. reflexivity. }
  assert (CoverL : forall d, In d (snd live) ->
                             isDateInArray exampleZone d (snd fetched) = true).
  { intros d H. vm_compute in H. destruct H. }
  split; [exact CoverP|]. split; [exact CoverL|].
  exact (proj2 (proj2 (merge_orders exampleZone exampleNow (answered [])
                         (answered [rowMondayPresent; rowTuesdayPresent])
                         (Some "u2"%string) [liveTuesdayPresent] selectedState))
           CoverP CoverL).
Defined.

(** C3, as claimed.  With no record for the selected face, Monday is a past
    working day in none of the three lists; with a present and a late record
    on Monday, Monday is both a present and a late day; and when the calendar
    shows Monday present, Tuesday and Wednesday absent, and a fetch then
    brings Tuesday's record, the hook renders Tuesday as present and still as
    absent until the absent-day effect has run. *)
Lemma classification_fails :
  let none := step exampleZone exampleNow
                (RecordsLoaded (Fulfilled (answered [])) (Fulfilled (answered [])))
                selectedState in
  let both := step exampleZone exampleNow
                (RecordsLoaded (Fulfilled (answered []))
                               (Fulfilled (answered [rowMondayPresent; rowMondayLate])))
                selectedState in
  let mondayOnly := step exampleZone exampleNow
                      (RecordsLoaded (Fulfilled (answered []))
                                     (Fulfilled (answered [rowMondayPresent])))
                      selectedState in
  let pending := pendingRender
                   (updatesOf exampleZone
                      (RecordsLoaded
                         (Fulfilled (answered []))
                         (Fulfilled (answered [rowMondayPresent; rowTuesdayPresent])))
                      mondayOnly)
                   mondayOnly in
  (settled exampleZone exampleNow none
   /\ In monday (workingDays none)
   /\ (monday <= exampleNow)%Z
   /\ isDateInArray exampleZone monday (attendanceDays none) = false
   /\ isDateInArray exampleZone monday (lateAttendanceDays none) = false
   /\ absentDays none = [])
  /\ (settled exampleZone exampleNow both
      /\ isDateInArray exampleZone monday (attendanceDays both) = true
      /\ isDateInArray exampleZone monday (lateAttendanceDays both) = true)
  /\ (rendered exampleZone pending
      /\ workingDays pending = [monday; tuesday; wednesday]
      /\ attendanceDays pending = [monday + 9 * hour; tuesday + 9 * hour]%Z
      /\ absentDays pending = [tuesday; wednesday]
      /\ isDateInArray exampleZone tuesday (attendanceDays pending) = true).
Proof.
  intros none both mondayOnly pending. split; [|split].
  - split; [apply (settled_after exampleZone exampleNow exampleNow exampleNow
                     selectedState none
                     (RecordsLoaded (Fulfilled (answered [])) (Fulfilled (answered []))));
            [apply selectedState_settled|reflexivity|reflexivity]|].
    vm_compute. repeat split; try tauto. discriminate.
  - split; [apply (settled_after exampleZone exampleNow exampleNow exampleNow
                     selectedState both
                     (RecordsLoaded (Fulfilled (answered []))
                        (Fulfilled (answered [rowMondayPresent; rowMondayLate]))));
            [apply selectedState_settled|reflexivity|reflexivity]|].
    vm_compute. split; reflexivity.
  - split; [|vm_compute; repeat split].
    apply (rendered_pending exampleZone exampleNow mondayOnly).
    apply (settled_after exampleZone exampleNow exampleNow exampleNow
             selectedState mondayOnly
             (RecordsLoaded (Fulfilled (answered []))
                            (Fulfilled (answered [rowMondayPresent]))));
      [apply selectedState_settled|reflexivity|reflexivity].
Qed.

Lemma classification_invariant_witness :
  let st := step exampleZone exampleNow
              (RecordsLoaded (Fulfilled (answered []))
                             (Fulfilled (answered [rowMondayPresent])))
              selectedState in
  settled exampleZone exampleNow st
  /\ workingDays st <> []
  /\ (forall a, In a (absentDays st) ->
                isDateInArray exampleZone a (attendanceDays st) = false
                /\ isDateInArray exampleZone a (lateAttendanceDays st) = false)
  /\ (attendanceDays st <> [] \/ lateAttendanceDays st <> [] ->
      forall d, In d (workingDays st) -> (d <= exampleNow)%Z ->
                isDateInArray exampleZone d (attendanceDays st) = true
                \/ isDateInArray exampleZone d (lateAttendanceDays st) = true
                \/ In d (absentDays st)).
Proof.
  intros st.
  assert (R : settled exampleZone exampleNow st).
  { apply (settled_after exampleZone exampleNow exampleNow exampleNow
             selectedState st
             (RecordsLoaded (Fulfilled (answered []))
                            (Fulfilled (answered [rowMondayPresent]))));
      [apply selectedState_settled|reflexivity|reflexivity]. }
  assert (W : workingDays st <> []) by (vm_compute; discriminate).
  split; [exact R|]. split; [exact W|].
  exact (classification_invariant exampleZone exampleNow st R W).
Defined.

(** The face id is also looked up as a row key.  Given the key of the
    unauthorized row itself, which names no identity, the fetch returns that
    row, and the backward-compatibility rule shows its day as present. *)
Example unauthorized_row_found_by_its_key :
  user_id rowUnauthorized = None
  /\ option_map toLowerCase (status rowUnauthorized) = Some "unauthorized"%string
  /\ fetchFromTable [rowMondayPresent; rowUnauthorized] "a9"
     = ([setAttendanceDays (Value [tuesday + 15 * hour]%Z);
         setLateAttendanceDays (Value [])], Returned tt)
  /\ attendanceDays
       (step exampleZone exampleNow
             (RecordsLoaded
                (Fulfilled (selectById [rowMondayPresent; rowUnauthorized] "a9"))
                (Fulfilled (selectByUserId [rowMondayPresent; rowUnauthorized] "a9")))
             selectedState)
     = [tuesday + 15 * hour]%Z.
Proof. vm_compute. repeat split. Qed.

Lemma unauthorized_row_not_attributed_witness :
  user_id rowUnauthorized = None
  /\ option_map toLowerCase (status rowUnauthorized) = Some "unauthorized"%string
  /\ row_id rowUnauthorized <> "u2"%string
  /\ rr_user_id liveUnauthorized = None
  /\ toLowerCase (rr_status liveUnauthorized) = "unauthorized"%string
  /\ fetchFromTable ([rowMondayPresent] ++ rowUnauthorized :: [rowTuesdayPresent]) "u2"
     = fetchFromTable ([rowMondayPresent] ++ [rowTuesdayPresent]) "u2"
  /\ attendanceDays
       (step exampleZone exampleNow
             (RecentAttendanceChanged (Some "u2"%string)
                ([liveTuesdayPresent] ++ liveUnauthorized :: []))
             selectedState)
     = attendanceDays
         (step exampleZone exampleNow
               (RecentAttendanceChanged (Some "u2"%string) ([liveTuesdayPresent] ++ []))
               selectedState).
Proof.
  assert (H3 : row_id rowUnauthorized <> "u2"%string) by discriminate.
  split; [reflexivity|]. split; [reflexivity|]. split; [exact H3|].
  split; [reflexivity|]. split; [reflexivity|].
  exact (unauthorized_row_not_attributed exampleZone
           [rowMondayPresent] [rowTuesdayPresent] rowUnauthorized "u2"
           [liveTuesdayPresent] [] liveUnauthorized (Some "u2"%string)
           exampleNow selectedState
           eq_refl eq_refl H3 eq_refl eq_refl).
Defined.

(** C5, at one input: Monday and Tuesday are on the calendar when both
    queries fail; afterwards they are gone and nothing was reported. *)
Example failed_fetch_example :
  let before := step exampleZone exampleNow
                  (RecordsLoaded (Fulfilled (answered []))
                     (Fulfilled (answered [rowMondayPresent; rowMondayLate])))
                  selectedState in
  let after := step exampleZone exampleNow
                 (RecordsLoaded (failedQuery "connection lost")
                                (failedQuery "connection lost"))
                 before in
  attendanceDays before = [monday + 9 * hour]%Z
  /\ lateAttendanceDays before = [monday + 11 * hour]%Z
  /\ attendanceDays after = []
  /\ lateAttendanceDays after = []
  /\ loadAttendanceRecords (failedQuery "connection lost") (failedQuery "connection lost")
     = ([setAttendanceDays (Value []); setLateAttendanceDays (Value [])], None).
Proof. vm_compute. repeat split. Qed.

(** * Further properties of the matcher *)

(** ** Finite numbers and square roots *)

Lemma Prim2SF_finite (x : float) :
  PrimFloat.is_finite x = true ->
  (exists s, Prim2SF x = S754_zero s)
  \/ (exists s m e, Prim2SF x = S754_finite s m e).
Proof.
  unfold PrimFloat.is_finite, PrimFloat.is_nan, PrimFloat.is_infinity.
  rewrite !eqb_spec, abs_spec.
  change (Prim2SF infinity) with (S754_infinity false).
  destruct (Prim2SF x) as [s|s| |s m e]; simpl; try discriminate;
    [eauto|destruct s; discriminate|intros _; right; eauto].
Qed.

Lemma sub_self (x : float) :
  PrimFloat.is_finite x = true -> (x - x)%float = 0%float.
Proof.
  intros F. apply Prim2SF_inj. rewrite sub_spec.
  change (Prim2SF 0) with (S754_zero false).
  destruct (Prim2SF_finite x F) as [[s E]|(s & m & e & E)]; rewrite E.
  - now destruct s.
  - unfold SF64sub, SFsub. now rewrite Z.sub_diag.
Qed.

Lemma sumSquares_self (d : Descriptor) :
  (forall x, In x d -> PrimFloat.is_finite x = true) ->
  sumSquares 0%float d d = 0%float.
Proof.
  induction d as [|x d IH]; intros F; simpl; [reflexivity|].
  rewrite (sub_self x (F x (or_introl eq_refl))).
  change (0 + 0 * 0)%float with 0%float. apply IH. intros y Hy. apply F. now right.
Qed.

Lemma binary_round_aux_sign (mx ex : Z) (lx : location) :
  let r := binary_round_aux prec emax false mx ex lx in
  r = S754_nan \/ r = S754_zero false \/ r = S754_infinity false
  \/ exists m e, r = S754_finite false m e.
Proof.
  unfold binary_round_aux.
  destruct (shr_fexp prec emax mx ex lx) as [mrs' e'].
  destruct (shr_fexp prec emax _ e' loc_Exact) as [mrs'' e''].
  destruct (shr_m mrs'') as [|m|m]; [tauto| |tauto].
  destruct (e'' <=? emax - prec)%Z; [|tauto].
  right. right. right. eauto.
Qed.

Lemma SFsqrt_not_negative (x : spec_float) :
  SFltb (SF64sqrt x) (S754_zero false) = false.
Proof.
  destruct x as [s|s| |s m e]; simpl; try reflexivity.
  - now destruct s.
  - destruct s; [reflexivity|].
    unfold SF64sqrt, SFsqrt.
    destruct (SFsqrt_core_binary prec emax (Z.pos m) e) as [[mz ez] lz].
    destruct (binary_round_aux_sign mz ez lz) as [E|[E|[E|(m' & e' & E)]]];
      rewrite E; reflexivity.
Qed.

Lemma sqrt_not_negative (x : float) : (PrimFloat.sqrt x <? 0)%float = false.
Proof.
  rewrite ltb_spec, sqrt_spec.
  change (Prim2SF 0) with (S754_zero false). apply SFsqrt_not_negative.
Qed.

(** ** The matcher on other inputs *)

Section MatcherCoverage.

Variable stringToDescriptor : string -> Completion Descriptor.
Variable faceDescriptor : Descriptor.

Local Abbreviation distance := (distanceTo stringToDescriptor faceDescriptor).
Local Abbreviation body := (loopBody stringToDescriptor faceDescriptor).
Local Abbreviation scan := (scanRecords stringToDescriptor faceDescriptor).
Local Abbreviation recognize := (recognizeFace stringToDescriptor faceDescriptor).

Lemma distance_not_negative (record : AttendanceRow) (d : float) :
  distance record = Some d -> (d <? 0)%float = false.
Proof.
  unfold distanceTo, compareRecord.
  destruct (storedDescriptor record) as [s|]; [|discriminate].
  destruct (stringToDescriptor s) as [registered|m]; [|discriminate].
  simpl. unfold calculateDistance.
  destruct (_ =? _)%nat; [|discriminate].
  intros E. injection E as <-. apply sqrt_not_negative.
Qed.

(** The loop started from the threshold, read on its result. *)
Lemma scan_result (records : list AttendanceRow) :
  (scan records = (None, threshold)
   /\ forall x d, In x records -> distance x = Some d ->
                  (d <? threshold)%float = false)
  \/ (exists r bd, scan records = (Some r, bd)
                   /\ In r records /\ distance r = Some bd
                   /\ (bd <? threshold)%float = true
                   /\ forall x d, In x records -> distance x = Some d ->
                                  (d <? bd)%float = false).
Proof.
  unfold scanRecords.
  pose proof (scan_from stringToDescriptor faceDescriptor records None threshold) as S.
  destruct (fold_left body records (None, threshold)) as [bm bd].
  destruct S as [(-> & -> & All)|(w & Hw & -> & Dw & Lw & All)].
  - left. split; [reflexivity|exact All].
  - right. exists w, bd. repeat split; auto.
Qed.

(** X1.  [recognizeFace] throws exactly when the query reports an error,
    and the message is the query's, prefixed. *)
Theorem recognizeFace_throws_iff_query_failed (response : QueryResponse)
    (message : string) :
  recognize response = Thrown message
  <-> exists reason, error response = Some reason
                     /\ message = ("Database query failed: " ++ reason)%string.
Proof.
  unfold recognizeFace. split.
  - destruct (error response) as [reason|].
    + intros E. injection E as <-. eauto.
    + destruct (data response) as [[|r records]|]; try discriminate.
      destruct (scan (r :: records)) as [[bestRow|] bestDistance]; [|discriminate].
      destruct (metadataOf bestRow); discriminate.
  - intros (reason & -> & ->). reflexivity.
Qed.

(** X2.  A result with [recognized = true] always comes from a row of the
    answer: one with a stored descriptor whose distance to the probe is
    below the threshold and not above that of any other row; the employee
    and the confidence are that row's. *)
Theorem recognized_result_is_sound (response : QueryResponse)
    (result : RecognitionResult) :
  recognize response = Returned result ->
  recognized result = true ->
  exists records row md d,
    data response = Some records
    /\ In row records
    /\ metadataOf row = Some md
    /\ distance row = Some d
    /\ (d <? threshold)%float = true
    /\ (forall x d', In x records -> distance x = Some d' -> (d' <? d)%float = false)
    /\ employee result = Some (employeeOf row md)
    /\ confidence result = Some (1 - d)%float.
Proof.
  unfold recognizeFace.
  destruct (error response); [discriminate|].
  destruct (data response) as [records|];
    [|intros E; injection E as <-; discriminate].
  intros E R. exists records.
  assert (E' : outcomeOf (scan records) = Returned result).
  { destruct records as [|r records]; [injection E as <-; discriminate|].
    destruct (scan (r :: records)) as [[bestRow|] bestDistance]; exact E. }
  clear E.
  destruct (scan_result records) as [[S _]|(w & bd & S & Hw & Dw & Lw & All)];
    rewrite S in E'; simpl in E'.
  - injection E' as <-. discriminate.
  - destruct (metadataOf w) as [md|] eqn:M.
    + injection E' as <-. exists w, md, bd. repeat split; auto.
    + injection E' as <-. discriminate.
Qed.

(** Two lists with the same rows end the loop on equal distances. *)
Lemma scan_same_rows (records records' : list AttendanceRow) :
  (forall x, In x records -> In x records') ->
  (forall x, In x records' -> In x records) ->
  exists res res',
    recognize (answered records) = Returned res
    /\ recognize (answered records') = Returned res'
    /\ recognized res = recognized res'
    /\ confidence res = confidence res'.
Proof.
  intros Sub Sup. rewrite !recognizeFace_answered.
  destruct (scan_result records) as [[S All]|(w & bd & S & Hw & Dw & Lw & All)];
    destruct (scan_result records') as [[S' All']|(w' & bd' & S' & Hw' & Dw' & Lw' & All')];
    rewrite S, S'; simpl.
  - eauto 10.
  - rewrite (All w' bd' (Sup _ Hw') Dw') in Lw'. discriminate.
  - rewrite (All' w bd (Sub _ Hw) Dw) in Lw. discriminate.
  - destruct (distance_metadata _ _ w bd Dw) as [md M].
    destruct (distance_metadata _ _ w' bd' Dw') as [md' M'].
    rewrite M, M'. do 2 eexists. split; [reflexivity|]. split; [reflexivity|].
    split; [reflexivity|]. simpl. f_equal. apply eqb_confidence.
    destruct (ltb_total _ _ _ _ Lw Lw') as [C|[C|C]]; [| |exact C].
    + now rewrite (All' w bd (Sub _ Hw) Dw) in C.
    + now rewrite (All w' bd' (Sup _ Hw') Dw') in C.
Qed.

(** X3.  Whether a face is recognized, and with what confidence, does not
    depend on the order of the rows or on repeated rows: two answers with
    the same rows give the same [recognized] and the same [confidence]. *)
Theorem recognizeFace_order_independent (records records' : list AttendanceRow) :
  (forall x, In x records <-> In x records') ->
  exists res res',
    recognize (answered records) = Returned res
    /\ recognize (answered records') = Returned res'
    /\ recognized res = recognized res'
    /\ confidence res = confidence res'.
Proof.
  intros Same. apply scan_same_rows; intros x; apply Same.
Qed.

(** X4.  More rows never turn a match into no match: when a face is
    recognized among some rows, it is recognized among any rows that
    include them. *)
Theorem more_rows_keep_match (records records' : list AttendanceRow)
    (result : RecognitionResult) :
  (forall x, In x records -> In x records') ->
  recognize (answered records) = Returned result ->
  recognized result = true ->
  exists result',
    recognize (answered records') = Returned result'
    /\ recognized result' = true.
Proof.
  intros Sub E R. rewrite recognizeFace_answered in *.
  destruct (scan_result records) as [[S _]|(w & bd & S & Hw & Dw & Lw & _)];
    rewrite S in E; simpl in E; [injection E as <-; discriminate|].
  destruct (scan_result records') as [[S' All']|(w' & bd' & S' & Hw' & Dw' & Lw' & _)];
    rewrite S'; simpl.
  - rewrite (All' w bd (Sub _ Hw) Dw) in Lw. discriminate.
  - destruct (distance_metadata _ _ w' bd' Dw') as [md' M']. rewrite M'. eauto.
Qed.

(** X7.  A probe equal to the decoded descriptor of some row of the answer,
    with finite components, is recognized with confidence 1. *)
Theorem identical_descriptor_recognized (records : list AttendanceRow)
    (row : AttendanceRow) (s : string) :
  In row records ->
  storedDescriptor row = Some s ->
  stringToDescriptor s = Returned faceDescriptor ->
  (forall x, In x faceDescriptor -> PrimFloat.is_finite x = true) ->
  exists result,
    recognize (answered records) = Returned result
    /\ recognized result = true
    /\ confidence result = Some 1%float.
Proof.
  intros Hrow St Dec Fin.
  assert (D0 : distance row = Some 0%float).
  { unfold distanceTo, compareRecord. rewrite St, Dec. simpl.
    unfold calculateDistance. rewrite Nat.eqb_refl, (sumSquares_self _ Fin).
    reflexivity. }
  rewrite recognizeFace_answered.
  destruct (scan_result records) as [[S All]|(w & bd & S & Hw & Dw & Lw & All)];
    rewrite S; simpl.
  - pose proof (All row 0%float Hrow D0) as C. vm_compute in C. discriminate.
  - destruct (distance_metadata _ _ w bd Dw) as [md M]. rewrite M.
    eexists. split; [reflexivity|]. split; [reflexivity|]. simpl. f_equal.
    change 1%float with (1 - 0)%float. apply eqb_confidence.
    assert (Below : (0 <? threshold)%float = true) by reflexivity.
    destruct (ltb_total bd 0%float threshold threshold Lw Below) as [C|[C|C]];
      [| |exact C].
    + now rewrite (distance_not_negative w bd Dw) in C.
    + now rewrite (All row 0%float Hrow D0) in C.
Qed.

End MatcherCoverage.

(** X5.  [calculateDistance] throws exactly when the two descriptors differ
    in length, and a distance it returns is never below zero. *)
Theorem calculateDistance_outcomes (descriptor1 descriptor2 : Descriptor) :
  (List.length descriptor1 <> List.length descriptor2 <->
   exists message, calculateDistance descriptor1 descriptor2 = Thrown message)
  /\ (forall d, calculateDistance descriptor1 descriptor2 = Returned d ->
                (d <? 0)%float = false).
Proof.
  unfold calculateDistance.
  destruct (Nat.eqb_spec (List.length descriptor1) (List.length descriptor2)) as [E|N].
  - split.
    + split; [intros C; now elim C|intros [m C]; discriminate].
    + intros d H. injection H as <-. apply sqrt_not_negative.
  - split.
    + split; [eauto|intros _; exact N].
    + discriminate.
Qed.

(** X6.  The distance of a descriptor with finite components to itself is
    zero. *)
Theorem calculateDistance_self (d : Descriptor) :
  (forall x, In x d -> PrimFloat.is_finite x = true) ->
  calculateDistance d d = Returned 0%float.
Proof.
  intros F. unfold calculateDistance.
  now rewrite Nat.eqb_refl, (sumSquares_self d F).
Qed.

Lemma recognized_result_is_sound_witness :
  exists result,
    recognizeFace exampleDecoder exampleProbe (answered [rowFar; rowAnn]) = Returned result
    /\ recognized result = true
    /\ exists records row md d,
        data (answered [rowFar; rowAnn]) = Some records
        /\ In row records
        /\ metadataOf row = Some md
        /\ distanceTo exampleDecoder exampleProbe row = Some d
        /\ (d <? threshold)%float = true
        /\ (forall x d', In x records ->
                         distanceTo exampleDecoder exampleProbe x = Some d' ->
                         (d' <? d)%float = false)
        /\ employee result = Some (employeeOf row md)
        /\ confidence result = Some (1 - d)%float.
Proof.
  eexists. split; [vm_compute; reflexivity|]. split; [reflexivity|].
  apply (recognized_result_is_sound exampleDecoder exampleProbe
           (answered [rowFar; rowAnn])); [vm_compute; reflexivity|reflexivity].
Defined.

Lemma recognizeFace_order_independent_witness :
  (forall x, In x [rowFar; rowAnn; rowBob] <-> In x [rowBob; rowFar; rowAnn; rowFar])
  /\ exists res res',
      recognizeFace exampleDecoder exampleProbe (answered [rowFar; rowAnn; rowBob])
      = Returned res
      /\ recognizeFace exampleDecoder exampleProbe
                       (answered [rowBob; rowFar; rowAnn; rowFar])
         = Returned res'
      /\ recognized res = recognized res'
      /\ confidence res = confidence res'.
Proof.
  assert (Same : forall x, In x [rowFar; rowAnn; rowBob]
                           <-> In x [rowBob; rowFar; rowAnn; rowFar])
    by (intros x; simpl; tauto).
  split; [exact Same|].
  exact (recognizeFace_order_independent exampleDecoder exampleProbe
           [rowFar; rowAnn; rowBob] [rowBob; rowFar; rowAnn; rowFar] Same).
Defined.

Lemma more_rows_keep_match_witness :
  exists result,
    (forall x, In x [rowAnn] -> In x [rowFar; rowBroken; rowAnn])
    /\ recognizeFace exampleDecoder exampleProbe (answered [rowAnn]) = Returned result
    /\ recognized result = true
    /\ exists result',
        recognizeFace exampleDecoder exampleProbe (answered [rowFar; rowBroken; rowAnn])
        = Returned result'
        /\ recognized result' = true.
Proof.
  assert (Sub : forall x, In x [rowAnn] -> In x [rowFar; rowBroken; rowAnn])
    by (intros x; simpl; tauto).
  eexists. split; [exact Sub|]. split; [vm_compute; reflexivity|].
  split; [reflexivity|].
  eapply (more_rows_keep_match exampleDecoder exampleProbe
            [rowAnn] [rowFar; rowBroken; rowAnn]);
    [exact Sub|vm_compute; reflexivity|reflexivity].
Defined.

Lemma calculateDistance_self_witness :
  (forall x, In x [0.3; 0.4]%float -> PrimFloat.is_finite x = true)
  /\ calculateDistance [0.3; 0.4]%float [0.3; 0.4]%float = Returned 0%float.
Proof.
  assert (F : forall x, In x [0.3; 0.4]%float -> PrimFloat.is_finite x = true)
    by (intros x [<-|[<-|[]]]; reflexivity).
  split; [exact F|exact (calculateDistance_self [0.3; 0.4]%float F)].
Defined.

Lemma identical_descriptor_recognized_witness :
  In rowAnn [rowFar; rowAnn]
  /\ storedDescriptor rowAnn = Some "0.3,0.4"%string
  /\ exampleDecoder "0.3,0.4" = Returned [0.3; 0.4]%float
  /\ (forall x, In x [0.3; 0.4]%float -> PrimFloat.is_finite x = true)
  /\ exists result,
      recognizeFace exampleDecoder [0.3; 0.4]%float (answered [rowFar; rowAnn])
      = Returned result
      /\ recognized result = true
      /\ confidence result = Some 1%float.
Proof.
  assert (H : In rowAnn [rowFar; rowAnn]) by (simpl; tauto).
  assert (F : forall x, In x [0.3; 0.4]%float -> PrimFloat.is_finite x = true)
    by (intros x [<-|[<-|[]]]; reflexivity).
  split; [exact H|]. split; [reflexivity|]. split; [reflexivity|]. split; [exact F|].
  exact (identical_descriptor_recognized exampleDecoder [0.3; 0.4]%float
           [rowFar; rowAnn] rowAnn "0.3,0.4"%string H eq_refl eq_refl F).
Defined.

(** * The rest of the services and views *)

(** ** Registration *)

Section Registration.

(** [descriptorToString] of the model service. *)
Variable descriptorToString : Descriptor -> string.

(** The row [registerFace] inserts.  [imageUrl] is the uploaded URL or the
    base64 fallback, [generatedId] a fresh [uuidv4()], and the two times are
    the two readings of [new Date().toISOString()]. *)
Definition registrationRow (deviceTime rowTime generatedId : string)
    (name employee_id department position : string) (userId : option string)
    (faceDescriptor : option Descriptor) (imageUrl : string) : InsertedRow :=
  let metadata :=
    {| name := Some name;
       employee_id := Some employee_id;
       department := Some department;
       position := Some position;
       firebase_image_url := Some imageUrl;
       faceDescriptor :=
         option_map (fun d => Str (descriptorToString d)) faceDescriptor |} in
  {| ins_user_id := Some (orElse userId generatedId);
     ins_timestamp := Some rowTime;
     ins_status := "registered";
     ins_device_info :=
       {| metadata := Some metadata;
          type := Some "webcam"%string;
          di_timestamp := Some deviceTime;
          registration := Some true;
          di_firebase_image_url := None;
          di_confidence := None;
          userAgent := None |};
     ins_confidence_score := None;
     ins_image_url := Some imageUrl |}.

(** [registerFace].  [blobSize] is [imageBlob.size], [uploaded] the outcome
    of [uploadImage], [base64] that of reading the blob as a data URL (only
    looked at when the upload threw) and [insertError] the error of the
    insert, if any. *)
Definition registerFace (blobSize : N) (uploaded base64 : Completion string)
    (insertError : option string)
    (deviceTime rowTime generatedId : string)
    (name employee_id department position : string) (userId : option string)
    (faceDescriptor : option Descriptor) : Completion InsertedRow :=
  if (blobSize =? 0)%N
  then Thrown "Invalid image: The image blob is empty or invalid"
  else
    (imageUrl <- match uploaded with
                 | Returned url => Returned url
                 | Thrown _ => base64
                 end ;;
     match insertError with
     | Some message =>
         Thrown ("Error inserting attendance record: " ++ message)%string
     | None =>
         Returned (registrationRow deviceTime rowTime generatedId
                     name employee_id department position userId
                     faceDescriptor imageUrl)
     end)%completion.

End Registration.

(** ** The recent activity list *)

(** The status text of one item of the list. *)
Definition activityStatus (status : option string) : string :=
  match status with
  | Some s =>
      if String.eqb s "present" then "Checked in"
      else if String.eqb s "late" then "Checked in (Late)"
      else "Unauthorized"
  | None => "Unauthorized"
  end.

(** The name [fetchRecentActivity] attaches to a row as [displayName].
    [nameKey] is what [metadata] holds under the key [name]: nothing, null
    or a string.  The name is that value when the key is there, else
    "Unknown"; when it is the string "Unknown" and the row has a user, the
    user's profile name if there is one.  [profileUsername] is what the
    [profiles] table holds for the row's user. *)
Definition displayNameOf (profileUsername : option string)
    (nameKey : option (option string)) (userId : option string) : option string :=
  let name := match nameKey with
              | Some value => value
              | None => Some "Unknown"%string
              end in
  let isUnknown := match name with
                   | Some n => String.eqb n "Unknown"
                   | None => false
                   end in
  if isUnknown
  then match nonEmptyString userId with
       | Some _ => match nonEmptyString profileUsername with
                   | Some username => Some username
                   | None => name
                   end
       | None => name
       end
  else name.

(** The key [name] of a row's metadata.  [Metadata] holds a name or none:
    a row of this type has the key exactly when it has a name, and never
    holds null under it. *)
Definition nameKeyOf (record : AttendanceRow) : option (option string) :=
  match metadataOf record with
  | Some md => match name md with
               | Some n => Some (Some n)
               | None => None
               end
  | None => None
  end.

Definition displayName (profileUsername : option string) (record : AttendanceRow)
  : option string :=
  displayNameOf profileUsername (nameKeyOf record) (user_id record).

(** The name an item shows: [item.displayName || 'Unknown']. *)
Definition shownNameOf (displayed : option string) : string :=
  orElse displayed "Unknown".

Definition shownName (profileUsername : option string) (record : AttendanceRow)
  : string :=
  shownNameOf (displayName profileUsername record).

(** ** The daily fetch *)

(** A row of the daily queries, which select [id, timestamp, status] of the
    rows whose timestamp lies in the day. *)
Record DailyRow : Type := {
  dr_id : string;
  dr_timestamp : Date;
  dr_status : option string
}.

Record DailyResponse : Type := {
  daily_data : option (list DailyRow);
  daily_error : option string
}.

Inductive DailySettled : Type :=
| DailyFulfilled (response : DailyResponse)
| DailyRejected (reason : string).

(** The status [fetchDailyAttendance] gives an entry. *)
Definition normalizedStatus (status : option string) : string :=
  match status with
  | Some s =>
      if String.eqb (toLowerCase s) "unauthorized" then "present" else toLowerCase s
  | None => "unknown"
  end.

Definition normalizeRow (record : DailyRow) : DailyEntry :=
  {| de_id := dr_id record;
     de_timestamp := dr_timestamp record;
     de_status := normalizedStatus (dr_status record) |}.

Definition orNoRows (d : option (list DailyRow)) : list DailyRow :=
  match d with
  | Some l => l
  | None => []
  end.

(** [fetchDailyAttendance], given how its two queries settle. *)
Definition fetchDailyAttendance (recordsById recordsByUserId : DailySettled)
  : list StateUpdate * Completion unit :=
  match recordsById with
  | DailyRejected reason => ([], Thrown reason)
  | DailyFulfilled byId =>
      match recordsByUserId with
      | DailyRejected reason => ([], Thrown reason)
      | DailyFulfilled byUserId =>
          let allRecords := orNoRows (daily_data byId) ++ orNoRows (daily_data byUserId) in
          if isNil allRecords
          then ([setDailyAttendance []], Returned tt)
          else ([setDailyAttendance (map normalizeRow allRecords)], Returned tt)
      end
  end.

(** ** The details of the selected day *)

(** What [DailyAttendanceDetails] renders under the date heading. *)
Inductive DetailView : Type :=
| NothingRendered
| FutureNotice
| RealtimeList (records : list RecentRecord)
| DailyList (entries : list DailyEntry)
| PresentBadge
| AbsentBadge
| NoRecordNotice.

Section Details.

Variable tzOffset : Z.

(** [isFutureDate]: later than the start of today. *)
Definition isFutureDate (now date : Date) : bool :=
  (date >? startOfDay tzOffset now)%Z.

Definition inSelectedDay (selected : Date) (record : RecentRecord) : bool :=
  (startOfDay tzOffset selected <=? rr_timestamp record)%Z
  && (rr_timestamp record <=? endOfDay tzOffset selected)%Z.

(** [getRealtimeAttendance]: null without a date or without recent rows. *)
Definition getRealtimeAttendance (selected : option Date)
    (recentAttendance : list RecentRecord) : option (list RecentRecord) :=
  match selected with
  | None => None
  | Some date =>
      if isNil recentAttendance then None
      else Some (filter (inSelectedDay date) recentAttendance)
  end.

Definition dailyAttendanceDetails (now : Date) (selected : option Date)
    (dailyAttendance : list DailyEntry) (recentAttendance : list RecentRecord)
    (attendanceDays lateAttendanceDays absentDays : list Date) : DetailView :=
  match selected with
  | None => NothingRendered
  | Some date =>
      let realtimeRecords := getRealtimeAttendance selected recentAttendance in
      let hasRealtimeRecords := match realtimeRecords with
                                | Some l => negb (isNil l)
                                | None => false
                                end in
      if isFutureDate now date then FutureNotice
      else if hasRealtimeRecords
           then RealtimeList (match realtimeRecords with
                              | Some l => l
                              | None => []
                              end)
      else if negb (isNil dailyAttendance) then DailyList dailyAttendance
      else if isDateInArray tzOffset date attendanceDays
              || isDateInArray tzOffset date lateAttendanceDays then PresentBadge
      else if isDateInArray tzOffset date absentDays then AbsentBadge
      else NoRecordNotice
  end.

End Details.

(** ** Written rows and what reads them *)

Lemma passed_over_row (stringToDescriptor : string -> Completion Descriptor)
    (faceDescriptor : Descriptor) (l1 l2 : list AttendanceRow) (row : AttendanceRow) :
  distanceTo stringToDescriptor faceDescriptor row = None ->
  recognizeFace stringToDescriptor faceDescriptor (answered (l1 ++ row :: l2))
  = recognizeFace stringToDescriptor faceDescriptor (answered (l1 ++ l2)).
Proof.
  intros D. rewrite !recognizeFace_answered. unfold scanRecords.
  rewrite !fold_left_app. cbn [fold_left].
  destruct (fold_left _ l1 (None, threshold)) as [bm bd].
  now rewrite loopBody_distance, D.
Qed.

Lemma no_descriptor_no_distance (stringToDescriptor : string -> Completion Descriptor)
    (faceDescriptor : Descriptor) (row : AttendanceRow) :
  storedDescriptor row = None ->
  distanceTo stringToDescriptor faceDescriptor row = None.
Proof.
  intros E. unfold distanceTo, compareRecord. now rewrite E.
Qed.

Section WrittenRows.

Variable descriptorToString : Descriptor -> string.
Variable stringToDescriptor : string -> Completion Descriptor.

(** X8.  [registerFace] throws in three cases only: the image is empty; the
    upload and the base64 fallback both fail; or the insert reports an
    error.  A failed upload alone does not fail the registration. *)
Theorem registerFace_throws_iff (blobSize : N) (uploaded base64 : Completion string)
    (insertError : option string) (deviceTime rowTime generatedId : string)
    (name employee_id department position : string) (userId : option string)
    (faceDescriptor : option Descriptor) (message : string) :
  registerFace descriptorToString blobSize uploaded base64 insertError
               deviceTime rowTime generatedId name employee_id department position
               userId faceDescriptor = Thrown message
  <-> (blobSize = 0%N
       /\ message = "Invalid image: The image blob is empty or invalid"%string)
      \/ (blobSize <> 0%N
          /\ (exists m, uploaded = Thrown m) /\ base64 = Thrown message)
      \/ (blobSize <> 0%N
          /\ ((exists url, uploaded = Returned url)
              \/ (exists m url, uploaded = Thrown m /\ base64 = Returned url))
          /\ exists reason,
              insertError = Some reason
              /\ message = ("Error inserting attendance record: " ++ reason)%string).
Proof.
  unfold registerFace.
  destruct (N.eqb_spec blobSize 0) as [->|NZ].
  - split.
    + intros E. injection E as <-. left. now split.
    + intros [[_ ->]|[(C & _)|(C & _)]]; [reflexivity|now elim C|now elim C].
  - destruct uploaded as [url|m]; simpl.
    + destruct insertError as [reason|]; split.
      * intros E. injection E as <-. right. right. split; [exact NZ|]. eauto 6.
      * intros [[C _]|[(_ & [m C] & _)|(_ & _ & reason' & E & ->)]];
          [now elim NZ|discriminate|]. now injection E as ->.
      * discriminate.
      * intros [[C _]|[(_ & [m C] & _)|(_ & _ & reason' & E & _)]];
          [now elim NZ|discriminate|discriminate].
    + destruct base64 as [url|m']; simpl.
      * destruct insertError as [reason|]; split.
        -- intros E. injection E as <-. right. right. split; [exact NZ|]. eauto 8.
        -- intros [[C _]|[(_ & _ & C)|(_ & _ & reason' & E & ->)]];
             [now elim NZ|discriminate|]. now injection E as ->.
        -- discriminate.
        -- intros [[C _]|[(_ & _ & C)|(_ & _ & reason' & E & _)]];
             [now elim NZ|discriminate|discriminate].
      * split.
        -- intros E. injection E as <-. right. left. eauto.
        -- intros [[C _]|[(_ & _ & C)|(_ & [[url C]|(m0 & url & _ & C)] & _)]];
             [now elim NZ| |discriminate|discriminate]. now injection C as ->.
Qed.

(** X9.  When the upload throws but the blob reads as a data URL, the
    registration goes through with that data URL as the image, both in the
    row and in its metadata, under the status "registered". *)
Theorem registerFace_falls_back_to_base64 (blobSize : N) (failure dataUrl : string)
    (deviceTime rowTime generatedId : string)
    (name employee_id department position : string) (userId : option string)
    (faceDescriptor : option Descriptor) :
  blobSize <> 0%N ->
  exists row md,
    registerFace descriptorToString blobSize (Thrown failure) (Returned dataUrl) None
                 deviceTime rowTime generatedId name employee_id department position
                 userId faceDescriptor = Returned row
    /\ ins_status row = "registered"%string
    /\ ins_image_url row = Some dataUrl
    /\ metadata (ins_device_info row) = Some md
    /\ firebase_image_url md = Some dataUrl
    /\ registration (ins_device_info row) = Some true.
Proof.
  intros NZ. unfold registerFace.
  apply N.eqb_neq in NZ. rewrite NZ. simpl.
  do 2 eexists. split; [reflexivity|]. repeat split.
Qed.

(** X10.  Registration and recognition round trip: when the descriptor
    codec gives back the registered descriptor, whose components are finite
    and whose string is not empty, recognizing that descriptor against the
    stored registration row answers with the registered person, the stored
    image and confidence 1. *)
Theorem register_then_recognize (blobSize : N) (uploaded base64 : Completion string)
    (insertError : option string) (deviceTime rowTime generatedId : string)
    (name employee_id department position : string) (userId : option string)
    (d : Descriptor) (inserted : InsertedRow) (row : AttendanceRow) :
  registerFace descriptorToString blobSize uploaded base64 insertError
               deviceTime rowTime generatedId name employee_id department position
               userId (Some d) = Returned inserted ->
  device_info row = Some (ins_device_info inserted) ->
  user_id row = ins_user_id inserted ->
  stringToDescriptor (descriptorToString d) = Returned d ->
  descriptorToString d <> ""%string ->
  (forall x, In x d -> PrimFloat.is_finite x = true) ->
  exists imageUrl,
    ins_image_url inserted = Some imageUrl
    /\ recognizeFace stringToDescriptor d (answered [row]) =
       Returned {| recognized := true;
                   employee :=
                     Some {| emp_id := orElse (Some (orElse userId generatedId)) "unknown";
                             emp_name := orElse (Some name) "Unknown";
                             emp_employee_id := orElse (Some employee_id) "Unknown";
                             emp_department := orElse (Some department) "Unknown";
                             emp_position := orElse (Some position) "Unknown";
                             emp_firebase_image_url := imageUrl |};
                   confidence := Some 1%float |}.
Proof.
  unfold registerFace. intros R DI U Codec NonEmpty Fin.
  destruct (blobSize =? 0)%N; [discriminate|].
  assert (exists imageUrl,
             inserted = registrationRow descriptorToString deviceTime rowTime generatedId
                          name employee_id department position userId (Some d) imageUrl)
    as [imageUrl ->].
  { destruct uploaded as [url|m]; simpl in R.
    - destruct insertError; [discriminate|]. injection R as <-. eauto.
    - destruct base64 as [url|m']; simpl in R; [|discriminate].
      destruct insertError; [discriminate|]. injection R as <-. eauto. }
  exists imageUrl. split; [reflexivity|].
  assert (St : storedDescriptor row = Some (descriptorToString d)).
  { unfold storedDescriptor, metadataOf. rewrite DI. simpl.
    destruct (descriptorToString d); [now elim NonEmpty|reflexivity]. }
  assert (D0 : distanceTo stringToDescriptor d row = Some 0%float).
  { unfold distanceTo, compareRecord. rewrite St, Codec. simpl.
    unfold calculateDistance. now rewrite Nat.eqb_refl, (sumSquares_self _ Fin). }
  rewrite recognizeFace_answered. unfold scanRecords. cbn [fold_left].
  rewrite loopBody_distance, D0.
  change (0 <? threshold)%float with true. cbn [outcomeOf].
  unfold metadataOf. rewrite DI. simpl. unfold employeeOf. rewrite U. simpl.
  destruct imageUrl; reflexivity.
Qed.

(** X11.  A registration without a descriptor, or whose descriptor string
    is empty, is never matched: with or without its row, a recognition pass
    gives the same result. *)
Theorem registration_without_descriptor_never_matches
    (blobSize : N) (uploaded base64 : Completion string)
    (insertError : option string) (deviceTime rowTime generatedId : string)
    (name employee_id department position : string) (userId : option string)
    (faceDescriptor : option Descriptor) (inserted : InsertedRow)
    (row : AttendanceRow) (probe : Descriptor) (l1 l2 : list AttendanceRow) :
  registerFace descriptorToString blobSize uploaded base64 insertError
               deviceTime rowTime generatedId name employee_id department position
               userId faceDescriptor = Returned inserted ->
  device_info row = Some (ins_device_info inserted) ->
  faceDescriptor = None
  \/ (exists d, faceDescriptor = Some d /\ descriptorToString d = ""%string) ->
  recognizeFace stringToDescriptor probe (answered (l1 ++ row :: l2))
  = recognizeFace stringToDescriptor probe (answered (l1 ++ l2)).
Proof.
  unfold registerFace. intros R DI No.
  destruct (blobSize =? 0)%N; [discriminate|].
  assert (exists imageUrl,
             inserted = registrationRow descriptorToString deviceTime rowTime generatedId
                          name employee_id department position userId faceDescriptor
                          imageUrl)
    as [imageUrl ->].
  { destruct uploaded as [url|m]; simpl in R.
    - destruct insertError; [discriminate|]. injection R as <-. eauto.
    - destruct base64 as [url|m']; simpl in R; [|discriminate].
      destruct insertError; [discriminate|]. injection R as <-. eauto. }
  apply passed_over_row, no_descriptor_no_distance.
  unfold storedDescriptor, metadataOf. rewrite DI. simpl.
  destruct No as [->|(d & -> & E)]; [reflexivity|]. simpl. now rewrite E.
Qed.

(** X12.  The row [storeUnrecognizedFace] writes is never matched either:
    it carries no metadata, so a recognition pass gives the same result
    with or without it. *)
Theorem unrecognized_row_never_matches (isoNow agent imageData : string)
    (blob : Completion N) (uploaded : Completion string) (inserted : InsertedRow)
    (row : AttendanceRow) (probe : Descriptor) (l1 l2 : list AttendanceRow) :
  storeUnrecognizedFace isoNow agent imageData blob uploaded = Some inserted ->
  device_info row = Some (ins_device_info inserted) ->
  recognizeFace stringToDescriptor probe (answered (l1 ++ row :: l2))
  = recognizeFace stringToDescriptor probe (answered (l1 ++ l2)).
Proof.
  unfold storeUnrecognizedFace. intros S DI.
  destruct blob as [size|m]; [|discriminate].
  destruct (size =? 0)%N; [discriminate|]. injection S as <-.
  apply passed_over_row, no_descriptor_no_distance.
  unfold storedDescriptor, metadataOf. now rewrite DI.
Qed.

End WrittenRows.

(** X13.  What the recent activity list says of written rows: an attempt
    recorded by [recordAttendance] reads "Checked in" when it was present or
    unauthorized, "Checked in (Late)" when late and "Unauthorized" when
    absent; the rows of [storeUnrecognizedFace] and of [registerFace] both
    read "Unauthorized". *)
Theorem activityStatus_of_written_rows :
  (forall isoNow profileUsername userId status confidence deviceInfo,
      activityStatus (Some (ins_status (recordAttendanceRow isoNow profileUsername userId
                                          status confidence deviceInfo)))
      = match status with
        | present | unauthorized => "Checked in"
        | late => "Checked in (Late)"
        | absent => "Unauthorized"
        end%string)
  /\ (forall isoNow agent imageData blob uploaded inserted,
        storeUnrecognizedFace isoNow agent imageData blob uploaded = Some inserted ->
        activityStatus (Some (ins_status inserted)) = "Unauthorized"%string)
  /\ (forall descriptorToString blobSize uploaded base64 insertError
             deviceTime rowTime generatedId name employee_id department position
             userId faceDescriptor inserted,
        registerFace descriptorToString blobSize uploaded base64 insertError
                     deviceTime rowTime generatedId name employee_id department
                     position userId faceDescriptor = Returned inserted ->
        activityStatus (Some (ins_status inserted)) = "Unauthorized"%string).
Proof.
  split; [|split].
  - intros isoNow profileUsername userId st confidence deviceInfo.
    destruct st; reflexivity.
  - intros isoNow agent imageData blob uploaded inserted.
    unfold storeUnrecognizedFace.
    destruct blob as [size|m]; [|discriminate].
    destruct (size =? 0)%N; [discriminate|]. intros E. now injection E as <-.
  - intros dts blobSize uploaded base64 insertError deviceTime rowTime generatedId
      name employee_id department position userId faceDescriptor inserted.
    unfold registerFace.
    destruct (blobSize =? 0)%N; [discriminate|].
    destruct uploaded as [url|m]; simpl.
    + destruct insertError; [discriminate|]. intros E. now injection E as <-.
    + destruct base64 as [url|m']; simpl; [|discriminate].
      destruct insertError; [discriminate|]. intros E. now injection E as <-.
Qed.

Lemma orElse_nonempty (a : option string) (b : string) :
  b <> ""%string -> orElse a b <> ""%string.
Proof.
  intros B. unfold orElse. destruct a as [[|c s]|]; simpl; congruence.
Qed.

Lemma nonEmptyString_some (a : option string) (s : string) :
  nonEmptyString a = Some s -> a = Some s /\ s <> ""%string.
Proof.
  unfold nonEmptyString. destruct a as [[|c t]|]; simpl; try discriminate.
  intros E. injection E as <-. split; [reflexivity|discriminate].
Qed.

(** X14.  The name [recordAttendance] stores is never empty, and it is the
    name the recent activity list shows for the row, as long as the same
    profile is on file and the user id is not the placeholder "unknown". *)
Theorem written_name_is_shown (isoNow : string) (profileUsername : option string)
    (userId : string) (status : AttendanceStatus) (confidence : option float)
    (deviceInfo : option DeviceInfo) (row : AttendanceRow) :
  device_info row
  = Some (ins_device_info (recordAttendanceRow isoNow profileUsername userId status
                                               confidence deviceInfo)) ->
  user_id row = Some userId ->
  userId <> "unknown"%string ->
  exists md written,
    metadataOf row = Some md
    /\ name md = Some written
    /\ written <> ""%string
    /\ shownName profileUsername row = written.
Proof.
  intros DI U Known.
  unfold recordAttendanceRow in DI. cbn [ins_device_info] in DI.
  apply String.eqb_neq in Known. rewrite Known in DI. cbn [negb andb] in DI.
  rewrite andb_true_r in DI.
  remember (if negb (isEmpty userId) then nonEmptyString profileUsername else None)
    as userName eqn:HuserName.
  remember (match deviceInfo with
            | Some d => match metadata d with
                        | Some m => name m
                        | None => None
                        end
            | None => None
            end) as given eqn:Hgiven.
  remember (orElse (orOption (nonEmptyString userName) (nonEmptyString given))
                   "Unknown") as written eqn:Hwritten.
  assert (NE : written <> ""%string)
    by (rewrite Hwritten; apply orElse_nonempty; discriminate).
  assert (M : exists md, metadataOf row = Some md /\ name md = Some written).
  { unfold metadataOf. rewrite DI. unfold fullDeviceInfo.
    rewrite Hwritten, Hgiven.
    destruct deviceInfo as [d|]; cbn [metadata].
    - destruct (metadata d) as [m|]; eexists; split; reflexivity.
    - eexists; split; reflexivity. }
  destruct M as (md & Hmd & Hname). exists md, written.
  split; [exact Hmd|]. split; [exact Hname|]. split; [exact NE|].
  assert (Keep : orElse (Some written) "Unknown" = written)
    by (unfold orElse; destruct written; [now elim NE|reflexivity]).
  unfold shownName, shownNameOf, displayName, displayNameOf, nameKeyOf.
  rewrite Hmd, Hname, U.
  destruct (String.eqb_spec written "Unknown") as [E|N]; [|exact Keep].
  unfold nonEmptyString at 1.
  destruct (isEmpty userId) eqn:Empty; [exact Keep|].
  destruct (nonEmptyString profileUsername) as [username|] eqn:P; [|exact Keep].
  assert (W : written = username).
  { rewrite Hwritten, HuserName. cbn [negb].
    destruct (nonEmptyString_some _ _ P) as [_ NEu].
    unfold nonEmptyString at 1. unfold orOption, orElse.
    destruct username; [now elim NEu|reflexivity]. }
  rewrite <- W. exact Keep.
Qed.

(** X15.  [recordAttendance] throws exactly when the insert reports an
    error.  The status it stores is "present", "late" or "absent", never
    "unauthorized", and it is "present" exactly for the present and the
    unauthorized attempts. *)
Theorem recordAttendance_outcomes (isoNow : string) (profileUsername : option string)
    (insertError : option string) (userId : string) (status : AttendanceStatus)
    (confidence : option float) (deviceInfo : option DeviceInfo) :
  (forall message,
      recordAttendance isoNow profileUsername insertError userId status
                       confidence deviceInfo = Thrown message
      <-> exists reason,
          insertError = Some reason
          /\ message = ("Failed to record attendance: " ++ reason)%string)
  /\ ins_status (recordAttendanceRow isoNow profileUsername userId status
                                     confidence deviceInfo) <> "unauthorized"%string
  /\ In (ins_status (recordAttendanceRow isoNow profileUsername userId status
                                         confidence deviceInfo))
        ["present"; "late"; "absent"]%string
  /\ (ins_status (recordAttendanceRow isoNow profileUsername userId status
                                      confidence deviceInfo) = "present"%string
      <-> status = present \/ status = unauthorized).
Proof.
  split; [|split; [|split]].
  - intros message. unfold recordAttendance.
    destruct insertError as [reason|]; split.
    + intros E. injection E as <-. eauto.
    + intros (reason' & E & ->). now injection E as ->.
    + discriminate.
    + intros (reason' & E & _). discriminate.
  - destruct status; discriminate.
  - destruct status; simpl; tauto.
  - destruct status; simpl; split; try tauto; try discriminate;
      intros [C|C]; discriminate.
Qed.

(** X16.  [storeUnrecognizedFace] leaves nothing in the table exactly when
    the image data does not decode, decodes to an empty blob, or the insert
    does not report success; a row it leaves holds as image the uploaded
    URL, or the image data itself when the upload throws, and its device
    info carries the same image. *)
Theorem storeUnrecognizedFace_outcomes (isoNow agent imageData : string)
    (blob : Completion N) (uploaded : Completion string)
    (inserted : Completion (option string)) :
  (unrecognizedFaceStored isoNow agent imageData blob uploaded inserted = None
   <-> (exists m, blob = Thrown m) \/ blob = Returned 0%N
       \/ inserted <> Returned None)
  /\ (forall row,
        unrecognizedFaceStored isoNow agent imageData blob uploaded inserted = Some row ->
        storeUnrecognizedFace isoNow agent imageData blob uploaded = Some row
        /\ ins_image_url row
           = Some (match uploaded with
                   | Returned url => url
                   | Thrown _ => imageData
                   end)
        /\ di_firebase_image_url (ins_device_info row) = ins_image_url row).
Proof.
  unfold unrecognizedFaceStored, storeUnrecognizedFace. split.
  - destruct blob as [size|m]; [|split; eauto].
    destruct (N.eqb_spec size 0) as [->|NZ]; [split; auto|].
    destruct inserted as [[e|]|m]; split; try (intros _; right; right; discriminate);
      try reflexivity; try discriminate.
    intros [[m C]|[C|C]]; [discriminate| |now elim C].
    injection C as ->. now elim NZ.
  - intros row. destruct blob as [size|m]; [|discriminate].
    destruct (size =? 0)%N; [discriminate|].
    destruct inserted as [[e|]|m]; try discriminate.
    intros E. injection E as <-. repeat split.
Qed.

(** X16, at three inputs: the same image stored, refused by the table, and
    never handed over. *)
Example storeUnrecognizedFace_insert_outcomes :
  let stored := unrecognizedFaceStored "2024-03-04T09:00:00.000Z" "Mozilla/5.0"
                  "data:image/png;base64,AAAA" (Returned 4%N) (Thrown "offline") in
  option_map ins_image_url (stored (Returned None))
  = Some (Some "data:image/png;base64,AAAA"%string)
  /\ stored (Returned (Some "row violates policy"%string)) = None
  /\ stored (Thrown "network") = None
  /\ unrecognizedFaceStored "2024-03-04T09:00:00.000Z" "Mozilla/5.0"
       "data:image/png;base64," (Returned 0%N) (Thrown "offline") (Returned None)
     = None.
Proof. vm_compute. repeat split. Qed.

(** *** A worked registration *)

(** An encoder matching [exampleDecoder] on the descriptors of the example. *)
Definition exampleEncoder (d : Descriptor) : string :=
  match d with
  | [x; y] => if ((x =? 0.3) && (y =? 0.4))%float then "0.3,0.4" else "1,1"
  | [_] => "1"
  | _ => ""
  end.

(** What the table holds for an inserted row, under a given id. *)
Definition storedAs (rid : string) (at_ : Date) (inserted : InsertedRow) : AttendanceRow :=
  {| row_id := rid;
     user_id := ins_user_id inserted;
     timestamp := Some at_;
     status := Some (ins_status inserted);
     device_info := Some (ins_device_info inserted) |}.

Definition annRegistration : InsertedRow :=
  registrationRow exampleEncoder "2024-03-04T03:30:00.000Z" "2024-03-04T03:30:00.001Z"
                  "generated-1" "Ann" "E-7" "Research" "Engineer"
                  (Some "u2"%string) (Some [0.3; 0.4]%float) "https://cdn/ann.jpg".

Definition bareRegistration : InsertedRow :=
  registrationRow exampleEncoder "2024-03-04T03:30:00.000Z" "2024-03-04T03:30:00.001Z"
                  "generated-1" "Cy" "E-9" "Sales" "Clerk"
                  None None "https://cdn/cy.jpg".

Lemma registerFace_falls_back_to_base64_witness :
  4%N <> 0%N
  /\ exists row md,
      registerFace exampleEncoder 4%N (Thrown "bucket not found")
                   (Returned "data:image/jpeg;base64,AAAA"%string) None
                   "2024-03-04T03:30:00.000Z" "2024-03-04T03:30:00.001Z" "generated-1"
                   "Ann" "E-7" "Research" "Engineer" (Some "u2"%string)
                   (Some [0.3; 0.4]%float) = Returned row
      /\ ins_status row = "registered"%string
      /\ ins_image_url row = Some "data:image/jpeg;base64,AAAA"%string
      /\ metadata (ins_device_info row) = Some md
      /\ firebase_image_url md = Some "data:image/jpeg;base64,AAAA"%string
      /\ registration (ins_device_info row) = Some true.
Proof.
  assert (NZ : 4%N <> 0%N) by discriminate.
  split; [exact NZ|].
  exact (registerFace_falls_back_to_base64 exampleEncoder 4%N "bucket not found"
           "data:image/jpeg;base64,AAAA" "2024-03-04T03:30:00.000Z"
           "2024-03-04T03:30:00.001Z" "generated-1" "Ann" "E-7" "Research" "Engineer"
           (Some "u2"%string) (Some [0.3; 0.4]%float) NZ).
Defined.

Lemma register_then_recognize_witness :
  registerFace exampleEncoder 4%N (Returned "https://cdn/ann.jpg"%string)
               (Thrown "not read") None
               "2024-03-04T03:30:00.000Z" "2024-03-04T03:30:00.001Z" "generated-1"
               "Ann" "E-7" "Research" "Engineer" (Some "u2"%string)
               (Some [0.3; 0.4]%float) = Returned annRegistration
  /\ exampleDecoder (exampleEncoder [0.3; 0.4]%float) = Returned [0.3; 0.4]%float
  /\ exampleEncoder [0.3; 0.4]%float <> ""%string
  /\ (forall x, In x [0.3; 0.4]%float -> PrimFloat.is_finite x = true)
  /\ exists imageUrl,
      ins_image_url annRegistration = Some imageUrl
      /\ recognizeFace exampleDecoder [0.3; 0.4]%float
                       (answered [storedAs "r1" monday annRegistration]) =
         Returned {| recognized := true;
                     employee :=
                       Some {| emp_id := orElse (Some (orElse (Some "u2"%string)
                                                              "generated-1"))
                                                "unknown";
                               emp_name := orElse (Some "Ann"%string) "Unknown";
                               emp_employee_id := orElse (Some "E-7"%string) "Unknown";
                               emp_department := orElse (Some "Research"%string)
                                                        "Unknown";
                               emp_position := orElse (Some "Engineer"%string)
                                                      "Unknown";
                               emp_firebase_image_url := imageUrl |};
                     confidence := Some 1%float |}.
Proof.
  assert (R : registerFace exampleEncoder 4%N (Returned "https://cdn/ann.jpg"%string)
                (Thrown "not read") None
                "2024-03-04T03:30:00.000Z" "2024-03-04T03:30:00.001Z" "generated-1"
                "Ann" "E-7" "Research" "Engineer" (Some "u2"%string)
                (Some [0.3; 0.4]%float) = Returned annRegistration) by reflexivity.
  assert (C : exampleDecoder (exampleEncoder [0.3; 0.4]%float)
              = Returned [0.3; 0.4]%float) by reflexivity.
  assert (NE : exampleEncoder [0.3; 0.4]%float <> ""%string)
    by (vm_compute; discriminate).
  assert (F : forall x, In x [0.3; 0.4]%float -> PrimFloat.is_finite x = true)
    by (intros x [<-|[<-|[]]]; reflexivity).
  split; [exact R|]. split; [exact C|]. split; [exact NE|]. split; [exact F|].
  exact (register_then_recognize exampleEncoder exampleDecoder 4%N
           (Returned "https://cdn/ann.jpg"%string) (Thrown "not read") None
           "2024-03-04T03:30:00.000Z" "2024-03-04T03:30:00.001Z" "generated-1"
           "Ann" "E-7" "Research" "Engineer" (Some "u2"%string) [0.3; 0.4]%float
           annRegistration (storedAs "r1" monday annRegistration)
           R eq_refl eq_refl C NE F).
Defined.

Lemma registration_without_descriptor_never_matches_witness :
  registerFace exampleEncoder 4%N (Returned "https://cdn/cy.jpg"%string)
               (Thrown "not read") None
               "2024-03-04T03:30:00.000Z" "2024-03-04T03:30:00.001Z" "generated-1"
               "Cy" "E-9" "Sales" "Clerk" None None = Returned bareRegistration
  /\ recognizeFace exampleDecoder exampleProbe
                   (answered ([rowFar] ++ storedAs "r2" monday bareRegistration
                                       :: [rowAnn]))
     = recognizeFace exampleDecoder exampleProbe (answered ([rowFar] ++ [rowAnn])).
Proof.
  assert (R : registerFace exampleEncoder 4%N (Returned "https://cdn/cy.jpg"%string)
                (Thrown "not read") None
                "2024-03-04T03:30:00.000Z" "2024-03-04T03:30:00.001Z" "generated-1"
                "Cy" "E-9" "Sales" "Clerk" None None = Returned bareRegistration)
    by reflexivity.
  split; [exact R|].
  exact (registration_without_descriptor_never_matches exampleEncoder exampleDecoder
           4%N (Returned "https://cdn/cy.jpg"%string) (Thrown "not read") None
           "2024-03-04T03:30:00.000Z" "2024-03-04T03:30:00.001Z" "generated-1"
           "Cy" "E-9" "Sales" "Clerk" None None bareRegistration
           (storedAs "r2" monday bareRegistration) exampleProbe [rowFar] [rowAnn]
           R eq_refl (or_introl eq_refl)).
Defined.

Lemma unrecognized_row_never_matches_witness :
  exists inserted,
    storeUnrecognizedFace "2024-03-04T09:00:00.000Z" "Mozilla/5.0"
                          "data:image/png;base64,AAAA"
                          (Returned 4%N) (Returned "https://cdn/f.jpg"%string)
    = Some inserted
    /\ recognizeFace exampleDecoder exampleProbe
                     (answered ([rowFar] ++ storedAs "r3" monday inserted :: [rowAnn]))
       = recognizeFace exampleDecoder exampleProbe (answered ([rowFar] ++ [rowAnn])).
Proof.
  eexists. split; [reflexivity|].
  eapply (unrecognized_row_never_matches exampleDecoder
            "2024-03-04T09:00:00.000Z" "Mozilla/5.0" "data:image/png;base64,AAAA"
            (Returned 4%N) (Returned "https://cdn/f.jpg"%string));
    reflexivity.
Defined.

Lemma written_name_is_shown_witness :
  let written := recordAttendanceRow "2024-03-04T09:00:00.000Z" (Some "ann_k"%string)
                                     "u2" unauthorized (Some 0.5%float) None in
  "u2"%string <> "unknown"%string
  /\ exists md name_,
      metadataOf (storedAs "a7" monday written) = Some md
      /\ name md = Some name_
      /\ name_ <> ""%string
      /\ shownName (Some "ann_k"%string) (storedAs "a7" monday written) = name_.
Proof.
  intros written.
  assert (K : "u2"%string <> "unknown"%string) by discriminate.
  split; [exact K|].
  exact (written_name_is_shown "2024-03-04T09:00:00.000Z" (Some "ann_k"%string)
           "u2" unauthorized (Some 0.5%float) None (storedAs "a7" monday written)
           eq_refl eq_refl K).
Defined.

(** ** The two fetches *)

Lemma lowerChar_again (c : ascii) : lowerChar (lowerChar c) = lowerChar c.
Proof.
  destruct c as [b0 b1 b2 b3 b4 b5 b6 b7].
  destruct b0, b1, b2, b3, b4, b5, b6, b7; reflexivity.
Qed.

Lemma toLowerCase_again (s : string) : toLowerCase (toLowerCase s) = toLowerCase s.
Proof.
  induction s as [|c s IH]; simpl; [reflexivity|].
  now rewrite lowerChar_again, IH.
Qed.

Lemma normalizedStatus_shape (status : option string) :
  normalizedStatus status <> "unauthorized"%string
  /\ toLowerCase (normalizedStatus status) = normalizedStatus status.
Proof.
  unfold normalizedStatus. destruct status as [s|]; [|split; [discriminate|reflexivity]].
  destruct (String.eqb_spec (toLowerCase s) "unauthorized") as [E|N].
  - split; [discriminate|reflexivity].
  - split; [exact N|apply toLowerCase_again].
Qed.

(** X17.  [fetchDailyAttendance] rethrows exactly when one of its queries
    throws, and then calls no setter.  When both queries are answered it
    calls [setDailyAttendance] once, with the rows of the first answer
    followed by those of the second, one entry per row and in that order; an
    answer without data, error or not, counts as no rows. *)
Theorem fetchDailyAttendance_outcomes (recordsById recordsByUserId : DailySettled) :
  (forall message,
      snd (fetchDailyAttendance recordsById recordsByUserId) = Thrown message
      <-> recordsById = DailyRejected message
          \/ ((exists r, recordsById = DailyFulfilled r)
              /\ recordsByUserId = DailyRejected message))
  /\ (forall message,
        snd (fetchDailyAttendance recordsById recordsByUserId) = Thrown message ->
        fst (fetchDailyAttendance recordsById recordsByUserId) = [])
  /\ (forall byId byUserId,
        recordsById = DailyFulfilled byId ->
        recordsByUserId = DailyFulfilled byUserId ->
        fetchDailyAttendance recordsById recordsByUserId
        = ([setDailyAttendance
              (map normalizeRow (orNoRows (daily_data byId)
                                 ++ orNoRows (daily_data byUserId)))],
           Returned tt)).
Proof.
  unfold fetchDailyAttendance.
  destruct recordsById as [r1|m1]; [destruct recordsByUserId as [r2|m2]|].
  - split; [|split].
    + intros message. split.
      * destruct (isNil _); discriminate.
      * intros [C|[_ C]]; discriminate.
    + intros message. destruct (isNil _); discriminate.
    + intros byId byUserId E1 E2. injection E1 as <-. injection E2 as <-.
      destruct (orNoRows (daily_data r1) ++ orNoRows (daily_data r2)); reflexivity.
  - split; [|split].
    + intros message. simpl. split.
      * intros E. injection E as <-. right. eauto.
      * intros [C|[_ C]]; [discriminate|now injection C as <-].
    + reflexivity.
    + discriminate.
  - split; [|split].
    + intros message. simpl. split.
      * intros E. injection E as <-. now left.
      * intros [C|[[r C] _]]; [now injection C as <-|discriminate].
    + reflexivity.
    + discriminate.
Qed.

(** X18.  No entry [fetchDailyAttendance] hands over has the status
    "unauthorized", and every status it hands over is in lower case. *)
Theorem daily_entries_are_normalized (recordsById recordsByUserId : DailySettled)
    (entries : list DailyEntry) (entry : DailyEntry) :
  In (setDailyAttendance entries)
     (fst (fetchDailyAttendance recordsById recordsByUserId)) ->
  In entry entries ->
  de_status entry <> "unauthorized"%string
  /\ toLowerCase (de_status entry) = de_status entry.
Proof.
  unfold fetchDailyAttendance.
  destruct recordsById as [r1|m1]; [|intros []].
  destruct recordsByUserId as [r2|m2]; [|intros []].
  destruct (orNoRows (daily_data r1) ++ orNoRows (daily_data r2)) as [|x rows];
    cbn [isNil fst].
  - intros [E|[]]. injection E as <-. intros [].
  - intros [E|[]]. injection E as <-. intros [<-|H].
    + apply normalizedStatus_shape.
    + apply in_map_iff in H. destruct H as (row & <- & _).
      apply normalizedStatus_shape.
Qed.

(** X19.  The daily list and the calendar agree on what counts: a row's
    entry reads "present" exactly when [fetchAttendanceRecords] counts the
    row as a present day, and "late" exactly when it counts it as a late
    day. *)
Theorem daily_status_agrees_with_calendar (record : AttendanceRow) :
  (normalizedStatus (status record) = "present"%string
   <-> isPresentRecord (lowerStatus record) = true)
  /\ (normalizedStatus (status record) = "late"%string
      <-> isLateRecord (lowerStatus record) = true).
Proof.
  unfold normalizedStatus, isPresentRecord, isLateRecord, statusIs, lowerStatus.
  cbn [status].
  destruct (status record) as [s|]; cbn [option_map];
    [|split; split; discriminate].
  destruct (String.eqb_spec (toLowerCase s) "unauthorized") as [E|N].
  - rewrite E. split; split; try reflexivity; discriminate.
  - destruct (String.eqb_spec (toLowerCase s) "present") as [P|NP];
      destruct (String.eqb_spec (toLowerCase s) "late") as [L|NL];
      split; split; intros H; try reflexivity; try assumption; try discriminate;
      try congruence.
Qed.

Lemma Thrown_inj {A : Type} (m m' : string) : @Thrown A m = Thrown m' -> m = m'.
Proof. intros E. now injection E. Qed.

(** X20.  [fetchAttendanceRecords] rethrows exactly when one of its queries
    throws, and then calls no setter; when both are answered it returns
    and calls each of the two setters once. *)
Theorem fetchAttendanceRecords_outcomes (recordsById recordsByUserId : Settled) :
  (forall message,
      snd (fetchAttendanceRecords recordsById recordsByUserId) = Thrown message
      <-> recordsById = Rejected message
          \/ ((exists r, recordsById = Fulfilled r)
              /\ recordsByUserId = Rejected message))
  /\ (forall message,
        snd (fetchAttendanceRecords recordsById recordsByUserId) = Thrown message ->
        fst (fetchAttendanceRecords recordsById recordsByUserId) = [])
  /\ (forall byId byUserId,
        recordsById = Fulfilled byId ->
        recordsByUserId = Fulfilled byUserId ->
        exists presentDays lateDays,
          fetchAttendanceRecords recordsById recordsByUserId
          = ([setAttendanceDays (Value presentDays);
              setLateAttendanceDays (Value lateDays)], Returned tt)).
Proof.
  destruct recordsById as [r1|m1]; [destruct recordsByUserId as [r2|m2]|].
  - rewrite fetch_fulfilled. split; [|split].
    + intros message. split; [discriminate|].
      intros [C|[_ C]]; discriminate.
    + discriminate.
    + intros byId byUserId E1 E2. eauto.
  - split; [|split].
    + intros message. simpl. split.
      * intros E. apply Thrown_inj in E. subst. right. eauto.
      * intros [C|[_ C]]; [discriminate|now injection C as <-].
    + reflexivity.
    + discriminate.
  - split; [|split].
    + intros message. simpl. split.
      * intros E. apply Thrown_inj in E. subst. now left.
      * intros [C|[[r C] _]]; [now injection C as <-|discriminate].
    + reflexivity.
    + discriminate.
Qed.

(** The days of one kind, as a function of all the rows. *)
Lemma daysOrNone_toDays (records : list AttendanceRow) :
  daysOrNone records = toDays records.
Proof. now destruct records. Qed.

Lemma toDays_filter_app (keep : AttendanceRow -> bool) (l1 l2 : list AttendanceRow) :
  toDays (filter keep (map lowerStatus (l1 ++ l2)))
  = toDays (filter keep (map lowerStatus l1))
    ++ toDays (filter keep (map lowerStatus l2)).
Proof.
  unfold toDays. now rewrite map_app, filter_app, flat_map_app.
Qed.

Lemma toDays_filter_In (keep : AttendanceRow -> bool) (l : list AttendanceRow)
    (row : AttendanceRow) (t : Date) :
  In row l -> keep (lowerStatus row) = true -> timestamp row = Some t ->
  In t (toDays (filter keep (map lowerStatus l))).
Proof.
  intros H K T. unfold toDays. apply in_flat_map.
  exists (lowerStatus row). split.
  - apply filter_In. split; [now apply in_map|exact K].
  - simpl. rewrite T. now left.
Qed.

(** X21.  A row found by both queries is counted twice: when a row's id and
    its user both equal the face id, a present day of that row occurs at
    least twice in the list handed to [setAttendanceDays]. *)
Theorem row_of_both_queries_is_counted_twice (table : list AttendanceRow)
    (faceId : string) (row : AttendanceRow) (t : Date) :
  In row table ->
  row_id row = faceId ->
  user_id row = Some faceId ->
  isPresentRecord (lowerStatus row) = true ->
  timestamp row = Some t ->
  exists presentDays lateDays,
    fetchFromTable table faceId
    = ([setAttendanceDays (Value presentDays);
        setLateAttendanceDays (Value lateDays)], Returned tt)
    /\ (2 <= count_occ Z.eq_dec presentDays t)%nat.
Proof.
  intros H I U P T. unfold fetchFromTable. rewrite fetch_fulfilled.
  do 2 eexists. split; [reflexivity|].
  unfold fetchedDays. cbn [fst selectById selectByUserId data orEmpty].
  rewrite daysOrNone_toDays, toDays_filter_app, count_occ_app.
  assert (A : In row (filter (fun r => String.eqb (row_id r) faceId) table)).
  { apply filter_In. split; [exact H|]. rewrite I. apply String.eqb_refl. }
  assert (B : In row (filter (fun r => match user_id r with
                                       | Some u => String.eqb u faceId
                                       | None => false
                                       end) table)).
  { apply filter_In. split; [exact H|]. rewrite U. apply String.eqb_refl. }
  pose proof (toDays_filter_In isPresentRecord _ row t A P T) as A'.
  pose proof (toDays_filter_In isPresentRecord _ row t B P T) as B'.
  apply (count_occ_In Z.eq_dec) in A', B'.
  exact (Nat.add_le_mono 1 _ 1 _ A' B').
Qed.

Lemma toDays_filter_skip (keep : AttendanceRow -> bool)
    (l1 l2 : list AttendanceRow) (row : AttendanceRow) :
  timestamp row = None \/ keep (lowerStatus row) = false ->
  toDays (filter keep (map lowerStatus (l1 ++ row :: l2)))
  = toDays (filter keep (map lowerStatus (l1 ++ l2))).
Proof.
  intros H. rewrite !toDays_filter_app. f_equal.
  change (row :: l2) with ([row] ++ l2). rewrite toDays_filter_app.
  replace (toDays (filter keep (map lowerStatus [row]))) with (@nil Date);
    [reflexivity|].
  cbn. destruct (keep (lowerStatus row)) eqn:K; [|reflexivity].
  destruct H as [T|C]; [|discriminate]. cbn. now rewrite T.
Qed.

(** X22.  Rows that are neither present, unauthorized nor late once their
    status is in lower case (a registration, say), and rows without a
    timestamp, count for nothing: the fetch makes the same setter calls as
    without them, in whichever answer they stand. *)
Theorem other_rows_do_not_count (l1 l2 others : list AttendanceRow)
    (row : AttendanceRow) (e1 e2 : option string) :
  timestamp row = None
  \/ (isPresentRecord (lowerStatus row) = false
      /\ isLateRecord (lowerStatus row) = false) ->
  fetchAttendanceRecords (Fulfilled {| data := Some (l1 ++ row :: l2); error := e1 |})
                         (Fulfilled {| data := Some others; error := e2 |})
  = fetchAttendanceRecords (Fulfilled {| data := Some (l1 ++ l2); error := e1 |})
                           (Fulfilled {| data := Some others; error := e2 |})
  /\ fetchAttendanceRecords (Fulfilled {| data := Some others; error := e1 |})
                            (Fulfilled {| data := Some (l1 ++ row :: l2); error := e2 |})
     = fetchAttendanceRecords (Fulfilled {| data := Some others; error := e1 |})
                              (Fulfilled {| data := Some (l1 ++ l2); error := e2 |}).
Proof.
  intros H. rewrite !fetch_fulfilled. unfold fetchedDays. cbn [data orEmpty fst snd].
  rewrite !daysOrNone_toDays.
  assert (P : timestamp row = None \/ isPresentRecord (lowerStatus row) = false)
    by tauto.
  assert (L : timestamp row = None \/ isLateRecord (lowerStatus row) = false)
    by tauto.
  split.
  - rewrite <- !app_assoc, <- !app_comm_cons.
    now rewrite (toDays_filter_skip _ l1 (l2 ++ others) row P),
                (toDays_filter_skip _ l1 (l2 ++ others) row L).
  - rewrite !app_assoc.
    now rewrite (toDays_filter_skip _ (others ++ l1) l2 row P),
                (toDays_filter_skip _ (others ++ l1) l2 row L).
Qed.

(** ** Days, the live effect and the details view *)

(** No two dates of the list fall on one calendar day. *)
Definition distinctDays (tzOffset : Z) (dates : list Date) : Prop :=
  NoDup (map (startOfDay tzOffset) dates).

Section CalendarCoverage.

Variable tzOffset : Z.

Local Abbreviation dayStart := (startOfDay tzOffset).
Local Abbreviation dayEnd := (endOfDay tzOffset).
Local Abbreviation inArray := (isDateInArray tzOffset).
Local Abbreviation merge := (mergeDates tzOffset).

Lemma window_same_day (selected t : Date) :
  (dayStart selected <= t <= dayEnd selected)%Z <-> dayStart t = dayStart selected.
Proof.
  unfold endOfDay, startOfDay, msPerDay. Z.div_mod_to_equations. lia.
Qed.

(** X23.  The window of the selected day is the calendar day: a timestamp
    lies between the start and the end of the selected day exactly when
    [isDateInArray] finds it on the day of the selected date.  The start of
    a day is its own start and no instant comes before the start or after
    the end of its day. *)
Theorem day_window_is_calendar_day (selected : Date) (record : RecentRecord) :
  inSelectedDay tzOffset selected record = inArray (rr_timestamp record) [selected]
  /\ dayStart (dayStart selected) = dayStart selected
  /\ (dayStart selected <= selected <= dayEnd selected)%Z.
Proof.
  split; [|split].
  - unfold inSelectedDay, isDateInArray. cbn [existsb]. rewrite orb_false_r.
    destruct (Z.eqb_spec (dayStart selected) (dayStart (rr_timestamp record))) as [E|N].
    + symmetry in E. apply window_same_day in E.
      apply andb_true_iff. split; apply Z.leb_le; lia.
    + apply not_true_is_false. intros H. apply andb_true_iff in H.
      destruct H as [H1 H2]. apply Z.leb_le in H1, H2.
      apply N. symmetry. apply window_same_day. lia.
  - apply window_same_day. unfold endOfDay, msPerDay. lia.
  - apply window_same_day. reflexivity.
Qed.

(** *** The daily list of the live effect *)

Lemma liveEffect_daily (selectedFaceId : option string)
    (recentAttendance : list RecentRecord) (selected : option Date)
    (entries : list DailyEntry) :
  In (setDailyAttendance entries)
     (recentAttendanceEffect tzOffset selectedFaceId recentAttendance selected) ->
  exists faceId date,
    nonEmptyString selectedFaceId = Some faceId
    /\ selected = Some date
    /\ entries <> []
    /\ entries = map toDailyEntry
                     (filter (inSelectedDay tzOffset date)
                             (filter (matchesFace faceId) recentAttendance)).
Proof.
  unfold recentAttendanceEffect.
  destruct (nonEmptyString selectedFaceId) as [faceId|]; [|intros []].
  destruct (isNil recentAttendance); [intros []|].
  destruct (isNil (filter (matchesFace faceId) recentAttendance)); [intros []|].
  destruct (collectDates tzOffset _) as [presentDates lateDates].
  intros H. apply in_app_or in H. destruct H as [H|H].
  { destruct (isNil presentDates); [destruct H|].
    destruct H as [H|[]]. discriminate. }
  apply in_app_or in H. destruct H as [H|H].
  { destruct (isNil lateDates); [destruct H|].
    destruct H as [H|[]]. discriminate. }
  destruct selected as [date|]; [|destruct H].
  fold (inSelectedDay tzOffset date) in H.
  destruct (filter (inSelectedDay tzOffset date) _) as [|r rs] eqn:F;
    cbn [isNil] in H; [destruct H|].
  destruct H as [H|[]]. injection H as <-.
  exists faceId, date. split; [reflexivity|]. split; [reflexivity|].
  split; [discriminate|]. now rewrite F.
Qed.

(** X24.  The daily list the live effect writes is never what the details
    view shows: whenever the effect writes one for the selected date, the
    view, given the same recent rows, shows the future notice or the recent
    rows of that day, among which every written entry has its row. *)
Theorem live_daily_list_is_never_shown (selectedFaceId : option string)
    (recentAttendance : list RecentRecord) (selected : Date)
    (entries : list DailyEntry) (now : Date) (dailyAttendance : list DailyEntry)
    (presentDays lateDays absent : list Date) :
  In (setDailyAttendance entries)
     (recentAttendanceEffect tzOffset selectedFaceId recentAttendance (Some selected)) ->
  dailyAttendanceDetails tzOffset now (Some selected) dailyAttendance recentAttendance
                         presentDays lateDays absent = FutureNotice
  \/ exists shown,
      dailyAttendanceDetails tzOffset now (Some selected) dailyAttendance
                             recentAttendance presentDays lateDays absent
      = RealtimeList shown
      /\ forall e, In e entries -> exists r, In r shown /\ toDailyEntry r = e.
Proof.
  intros H. apply liveEffect_daily in H.
  destruct H as (faceId & date & _ & D & NE & ->). injection D as <-.
  unfold dailyAttendanceDetails, getRealtimeAttendance.
  destruct (isFutureDate tzOffset now selected); [now left|]. right.
  assert (Sub : forall r,
             In r (filter (inSelectedDay tzOffset selected)
                          (filter (matchesFace faceId) recentAttendance)) ->
             In r (filter (inSelectedDay tzOffset selected) recentAttendance)).
  { intros r Hr. apply filter_In in Hr. destruct Hr as [Hr K].
    apply filter_In in Hr. destruct Hr as [Hr _]. apply filter_In. now split. }
  destruct (filter (inSelectedDay tzOffset selected)
                   (filter (matchesFace faceId) recentAttendance))
    as [|r0 rs] eqn:F; [now elim NE|].
  pose proof (Sub r0 (or_introl eq_refl)) as In0.
  destruct recentAttendance as [|x recent]; [destruct In0|]. cbn [isNil].
  destruct (filter (inSelectedDay tzOffset selected) (x :: recent)) as [|y ys] eqn:G;
    [destruct In0|]. cbn [isNil negb].
  eexists. split; [reflexivity|].
  intros e He. apply in_map_iff in He. destruct He as (r & <- & Hr).
  exists r. split; [now apply Sub|reflexivity].
Qed.

(** X25.  The details view shows the absent badge exactly for a selected
    date that is not in the future, has no recent row in its day and no
    daily entry, is neither a present nor a late day, and is an absent
    day. *)
Theorem absent_badge_iff (now : Date) (selected : option Date)
    (dailyAttendance : list DailyEntry) (recentAttendance : list RecentRecord)
    (presentDays lateDays absent : list Date) :
  dailyAttendanceDetails tzOffset now selected dailyAttendance recentAttendance
                         presentDays lateDays absent = AbsentBadge
  <-> exists date,
      selected = Some date
      /\ (date <= dayStart now)%Z
      /\ filter (inSelectedDay tzOffset date) recentAttendance = []
      /\ dailyAttendance = []
      /\ inArray date presentDays = false
      /\ inArray date lateDays = false
      /\ inArray date absent = true.
Proof.
  unfold dailyAttendanceDetails, getRealtimeAttendance, isFutureDate.
  destruct selected as [date|];
    [|split; [discriminate|intros (d & C & _); discriminate]].
  assert (R : (if isNil recentAttendance then false
               else negb (isNil (filter (inSelectedDay tzOffset date) recentAttendance)))
              = negb (isNil (filter (inSelectedDay tzOffset date) recentAttendance)))
    by (destruct recentAttendance; reflexivity).
  split.
  - intros H. exists date. split; [reflexivity|].
    destruct (date >? dayStart now)%Z eqn:Fu; [discriminate|].
    split; [rewrite Z.gtb_ltb in Fu; apply Z.ltb_ge in Fu; exact Fu|].
    destruct (isNil recentAttendance) eqn:Nil.
    + apply isNil_nil in Nil. subst. split; [reflexivity|].
      destruct dailyAttendance; [|discriminate]. split; [reflexivity|].
      cbn [isNil negb] in H.
      destruct (inArray date presentDays); [discriminate|].
      destruct (inArray date lateDays); [discriminate|].
      destruct (inArray date absent); [tauto|discriminate].
    + destruct (filter (inSelectedDay tzOffset date) recentAttendance);
        [|discriminate]. split; [reflexivity|].
      destruct dailyAttendance; [|discriminate]. split; [reflexivity|].
      cbn [isNil negb] in H.
      destruct (inArray date presentDays); [discriminate|].
      destruct (inArray date lateDays); [discriminate|].
      destruct (inArray date absent); [tauto|discriminate].
  - intros (d & D & Le & F & -> & P & L & A). injection D as <-.
    assert (Fu : (date >? dayStart now)%Z = false)
      by (rewrite Z.gtb_ltb; apply Z.ltb_ge; exact Le).
    rewrite Fu, F, P, L, A. now destruct (isNil recentAttendance).
Qed.

(** *** Merging twice, and distinct days *)

Lemma merge_again (dates prev : list Date) :
  merge dates (merge dates prev) = merge dates prev.
Proof.
  apply merge_covered. intros d H. now apply merge_adds.
Qed.

(** X26.  Both merges are idempotent: applying the same batch of live rows
    a second time, or the same settled fetch a second time, at the same
    clock reading, leaves the present, late and absent days as the first
    application left them. *)
Theorem merging_twice_changes_nothing (today : Date) (st : CalendarState) :
  (forall selectedFaceId recentAttendance,
      let ev := RecentAttendanceChanged selectedFaceId recentAttendance in
      let once := step tzOffset today ev st in
      let twice := step tzOffset today ev once in
      attendanceDays twice = attendanceDays once
      /\ lateAttendanceDays twice = lateAttendanceDays once
      /\ absentDays twice = absentDays once)
  /\ (forall recordsById recordsByUserId,
        let ev := RecordsLoaded recordsById recordsByUserId in
        let once := step tzOffset today ev st in
        let twice := step tzOffset today ev once in
        attendanceDays twice = attendanceDays once
        /\ lateAttendanceDays twice = lateAttendanceDays once
        /\ absentDays twice = absentDays once).
Proof.
  split.
  - intros selectedFaceId recentAttendance ev once twice.
    destruct (live_cells tzOffset today selectedFaceId recentAttendance st)
      as (P1 & L1 & W1 & A1).
    destruct (live_cells tzOffset today selectedFaceId recentAttendance once)
      as (P2 & L2 & W2 & A2).
    fold ev once in P1, L1, W1, A1. fold ev once twice in P2, L2, W2, A2.
    rewrite P2, L2, A2, W1, A1, P1, L1, !merge_again.
    split; [reflexivity|]. split; [reflexivity|].
    destruct (negb (isNil _) || negb (isNil _)); [|reflexivity].
    apply derivedAbsent_again.
  - intros recordsById recordsByUserId ev once twice.
    destruct recordsById as [r1|m1];
      [destruct recordsByUserId as [r2|m2]|]; try (repeat split; fail).
    destruct (loaded_cells tzOffset today r1 r2 st) as (P1 & L1 & W1 & A1).
    destruct (loaded_cells tzOffset today r1 r2 once) as (P2 & L2 & W2 & A2).
    fold ev once in P1, L1, W1, A1. fold ev once twice in P2, L2, W2, A2.
    rewrite P2, L2, A2, W1, A1, P1, L1.
    split; [reflexivity|]. split; [reflexivity|]. apply derivedAbsent_again.
Qed.

Lemma inArray_false_not_in (d : Date) (dates : list Date) :
  inArray d dates = false -> ~ In (dayStart d) (map dayStart dates).
Proof.
  intros H C. apply in_map_iff in C. destruct C as (x & E & Hx).
  assert (T : inArray d dates = true).
  { apply existsb_exists. exists x. split; [exact Hx|]. now apply Z.eqb_eq. }
  congruence.
Qed.

Lemma merge_distinct (dates : list Date) :
  forall prev, distinctDays tzOffset prev -> distinctDays tzOffset (merge dates prev).
Proof.
  induction dates as [|x dates IH]; intros prev D; simpl; [exact D|].
  apply IH. destruct (inArray x prev) eqn:E; [exact D|].
  unfold distinctDays. rewrite map_app. cbn [map].
  apply (NoDup_Add (a := dayStart x) (l := map dayStart prev ++ [])).
  - apply Add_app.
  - rewrite app_nil_r. split; [exact D|now apply inArray_false_not_in].
Qed.

(** X27.  The live merge never puts a second date of one calendar day into
    a list: when no two present days fall on one day before a batch of live
    rows is merged, none do after it, and likewise for the late days. *)
Theorem live_merge_keeps_days_distinct (today : Date)
    (selectedFaceId : option string) (recentAttendance : list RecentRecord)
    (st : CalendarState) :
  distinctDays tzOffset (attendanceDays st) ->
  distinctDays tzOffset (lateAttendanceDays st) ->
  let st' := step tzOffset today
                  (RecentAttendanceChanged selectedFaceId recentAttendance) st in
  distinctDays tzOffset (attendanceDays st')
  /\ distinctDays tzOffset (lateAttendanceDays st').
Proof.
  intros DP DL st'.
  destruct (live_cells tzOffset today selectedFaceId recentAttendance st)
    as (P & L & _).
  fold st' in P, L. rewrite P, L. split; now apply merge_distinct.
Qed.

(** *** One batch of live rows *)

Lemma existsb_eqb_false (d : Date) (l : list Date) :
  existsb (fun x => (x =? d)%Z) l = false -> ~ In d l.
Proof.
  intros H C.
  assert (T : existsb (fun x => (x =? d)%Z) l = true)
    by (apply existsb_exists; exists d; split; [exact C|apply Z.eqb_refl]).
  congruence.
Qed.

Lemma collectDate_step (source : list RecentRecord) (x : RecentRecord)
    (p l : list Date) :
  In x source ->
  NoDup (p ++ l) ->
  (forall d, In d (p ++ l) -> exists r, In r source /\ d = dayStart (rr_timestamp r)) ->
  let out := collectDate tzOffset (p, l) x in
  NoDup (fst out ++ snd out)
  /\ forall d, In d (fst out ++ snd out) ->
                exists r, In r source /\ d = dayStart (rr_timestamp r).
Proof.
  intros Hx ND From. unfold collectDate.
  destruct (existsb (fun d => (d =? dayStart (rr_timestamp x))%Z) p) eqn:Ep;
    [split; assumption|].
  destruct (existsb (fun d => (d =? dayStart (rr_timestamp x))%Z) l) eqn:El;
    [split; assumption|].
  apply existsb_eqb_false in Ep, El. cbn [orb].
  destruct (isPresentStatus (rr_status x)); cbn [fst snd].
  - split.
    + rewrite <- app_assoc. cbn [app].
      apply (NoDup_Add (Add_app _ p l)). split; [exact ND|].
      intros C. apply in_app_or in C. tauto.
    + intros d Hd. rewrite <- app_assoc in Hd. cbn [app] in Hd.
      apply in_app_or in Hd. destruct Hd as [Hd|[<-|Hd]].
      * apply From, in_or_app. now left.
      * exists x. split; [exact Hx|reflexivity].
      * apply From, in_or_app. now right.
  - destruct (isLateStatus (rr_status x)); cbn [fst snd]; [|split; assumption].
    split.
    + rewrite app_assoc.
      apply (NoDup_Add (a := dayStart (rr_timestamp x)) (l := (p ++ l) ++ [])).
      * apply Add_app.
      * rewrite app_nil_r. split; [exact ND|].
        intros C. apply in_app_or in C. tauto.
    + intros d Hd. rewrite app_assoc in Hd.
      apply in_app_or in Hd. destruct Hd as [Hd|[<-|[]]].
      * now apply From.
      * exists x. split; [exact Hx|reflexivity].
Qed.

Lemma collectDate_invariant (source : list RecentRecord) (records : list RecentRecord) :
  forall acc,
    (forall r, In r records -> In r source) ->
    NoDup (fst acc ++ snd acc) ->
    (forall d, In d (fst acc ++ snd acc) ->
               exists r, In r source /\ d = dayStart (rr_timestamp r)) ->
    let out := fold_left (collectDate tzOffset) records acc in
    NoDup (fst out ++ snd out)
    /\ forall d, In d (fst out ++ snd out) ->
                 exists r, In r source /\ d = dayStart (rr_timestamp r).
Proof.
  induction records as [|x records IH]; intros [p l] Sub ND From; cbn [fold_left];
    [split; assumption|].
  destruct (collectDate_step source x p l (Sub x (or_introl eq_refl)) ND From)
    as [ND' From'].
  apply IH; [intros r Hr; apply Sub; now right|exact ND'|exact From'].
Qed.

(** X28.  In the dates the live effect collects from one batch, a calendar
    day stands at most once, in the present or in the late list but not in
    both; and each date is the start of the day of a recent row of the
    selected face. *)
Theorem live_batch_days_are_distinct (selectedFaceId : option string)
    (recentAttendance : list RecentRecord) :
  let live := liveDates tzOffset selectedFaceId recentAttendance in
  distinctDays tzOffset (fst live ++ snd live)
  /\ NoDup (fst live ++ snd live)
  /\ forall d, In d (fst live ++ snd live) ->
                exists faceId r,
                  nonEmptyString selectedFaceId = Some faceId
                  /\ In r recentAttendance
                  /\ matchesFace faceId r = true
                  /\ d = dayStart (rr_timestamp r).
Proof.
  intros live. subst live. unfold liveDates.
  destruct (nonEmptyString selectedFaceId) as [faceId|];
    [|repeat split; try constructor; intros d []].
  unfold collectDates.
  destruct (collectDate_invariant (filter (matchesFace faceId) recentAttendance)
              (filter (matchesFace faceId) recentAttendance) ([], []))
    as [ND From]; [auto|constructor|intros d []|].
  set (out := fold_left (collectDate tzOffset) _ _) in *.
  assert (Own : map dayStart (fst out ++ snd out) = fst out ++ snd out).
  { rewrite <- (map_id (fst out ++ snd out)) at 2. apply map_ext_in.
    intros d Hd. destruct (From d Hd) as (r & _ & ->).
    apply window_same_day. unfold endOfDay, msPerDay. lia. }
  split; [unfold distinctDays; now rewrite Own|]. split; [exact ND|].
  intros d Hd. destruct (From d Hd) as (r & Hr & ->).
  apply filter_In in Hr. destruct Hr as [Hr M]. exists faceId, r. auto.
Qed.

(** X29.  A recent row of another face changes nothing: with or without
    it, the live effect makes the same setter calls. *)
Theorem other_faces_are_ignored (faceId : string) (l1 l2 : list RecentRecord)
    (record : RecentRecord) (selected : option Date) :
  matchesFace faceId record = false ->
  recentAttendanceEffect tzOffset (Some faceId) (l1 ++ record :: l2) selected
  = recentAttendanceEffect tzOffset (Some faceId) (l1 ++ l2) selected.
Proof.
  intros M. unfold recentAttendanceEffect.
  destruct (nonEmptyString (Some faceId)) as [f|] eqn:N; [|reflexivity].
  assert (f = faceId) as ->.
  { unfold nonEmptyString in N. destruct (isEmpty faceId); congruence. }
  assert (F : filter (matchesFace faceId) (l1 ++ record :: l2)
              = filter (matchesFace faceId) (l1 ++ l2)).
  { rewrite !filter_app. cbn [filter]. now rewrite M. }
  rewrite F.
  assert (NN : isNil (l1 ++ record :: l2) = false) by (now destruct l1).
  rewrite NN.
  destruct (isNil (l1 ++ l2)) eqn:E; [|reflexivity].
  apply isNil_nil in E. now rewrite E.
Qed.

(** X30.  A fetch that finds neither present nor late days empties both
    lists and leaves the absent days as they were: they are not derived
    again, whatever they were derived from. *)
Theorem empty_fetch_keeps_absent_days (today : Date) (byId byUserId : QueryResponse)
    (st : CalendarState) :
  fetchedDays byId byUserId = ([], []) ->
  let st' := step tzOffset today
                  (RecordsLoaded (Fulfilled byId) (Fulfilled byUserId)) st in
  attendanceDays st' = []
  /\ lateAttendanceDays st' = []
  /\ absentDays st' = absentDays st.
Proof.
  intros E st'.
  destruct (loaded_cells tzOffset today byId byUserId st) as (P & L & _ & A).
  fold st' in P, L, A. rewrite P, L, A, E. cbn [fst snd].
  split; [reflexivity|]. split; [reflexivity|].
  unfold derivedAbsent. cbn [isNil negb orb]. now rewrite andb_false_r.
Qed.

End CalendarCoverage.

(** *** The worked week again *)

Definition dailyUnauthorized : DailyRow :=
  {| dr_id := "a9"; dr_timestamp := (tuesday + 15 * hour)%Z;
     dr_status := Some "Unauthorized"%string |}.

Definition rowOfBothQueries : AttendanceRow :=
  storedRow "u2" (Some "u2"%string) (monday + 9 * hour)%Z "Present".

(** The hook after Monday's present row was fetched. *)
Definition mondayState : CalendarState :=
  step exampleZone exampleNow
       (RecordsLoaded (Fulfilled (answered []))
                      (Fulfilled (answered [rowMondayPresent])))
       selectedState.

Lemma daily_entries_are_normalized_witness :
  let entry := {| de_id := "a9"; de_timestamp := (tuesday + 15 * hour)%Z;
                  de_status := "present" |} in
  let byId := DailyFulfilled {| daily_data := Some [dailyUnauthorized];
                                daily_error := None |} in
  let byUserId := DailyFulfilled {| daily_data := None;
                                    daily_error := Some "timeout"%string |} in
  In (setDailyAttendance [entry]) (fst (fetchDailyAttendance byId byUserId))
  /\ In entry [entry]
  /\ de_status entry <> "unauthorized"%string
  /\ toLowerCase (de_status entry) = de_status entry.
Proof.
  intros entry byId byUserId.
  assert (H : In (setDailyAttendance [entry]) (fst (fetchDailyAttendance byId byUserId)))
    by (left; reflexivity).
  assert (H' : In entry [entry]) by (left; reflexivity).
  split; [exact H|]. split; [exact H'|].
  exact (daily_entries_are_normalized byId byUserId [entry] entry H H').
Defined.

Lemma row_of_both_queries_is_counted_twice_witness :
  In rowOfBothQueries [rowOfBothQueries]
  /\ isPresentRecord (lowerStatus rowOfBothQueries) = true
  /\ exists presentDays lateDays,
      fetchFromTable [rowOfBothQueries] "u2"
      = ([setAttendanceDays (Value presentDays);
          setLateAttendanceDays (Value lateDays)], Returned tt)
      /\ (2 <= count_occ Z.eq_dec presentDays (monday + 9 * hour)%Z)%nat.
Proof.
  assert (H : In rowOfBothQueries [rowOfBothQueries]) by (left; reflexivity).
  split; [exact H|]. split; [reflexivity|].
  exact (row_of_both_queries_is_counted_twice [rowOfBothQueries] "u2"
           rowOfBothQueries (monday + 9 * hour)%Z H eq_refl eq_refl eq_refl eq_refl).
Defined.

Lemma other_rows_do_not_count_witness :
  (isPresentRecord (lowerStatus rowFar) = false
   /\ isLateRecord (lowerStatus rowFar) = false)
  /\ fetchAttendanceRecords
       (Fulfilled {| data := Some ([rowMondayPresent] ++ rowFar :: []); error := None |})
       (Fulfilled {| data := Some [rowMondayLate]; error := None |})
     = fetchAttendanceRecords
         (Fulfilled {| data := Some ([rowMondayPresent] ++ []); error := None |})
         (Fulfilled {| data := Some [rowMondayLate]; error := None |}).
Proof.
  assert (H : isPresentRecord (lowerStatus rowFar) = false
              /\ isLateRecord (lowerStatus rowFar) = false) by (split; reflexivity).
  split; [exact H|].
  exact (proj1 (other_rows_do_not_count [rowMondayPresent] [] [rowMondayLate] rowFar
                  None None (or_intror H))).
Defined.

Lemma live_daily_list_is_never_shown_witness :
  In (setDailyAttendance [toDailyEntry liveTuesdayPresent])
     (recentAttendanceEffect exampleZone (Some "u2"%string) [liveTuesdayPresent]
                             (Some tuesday))
  /\ (dailyAttendanceDetails exampleZone exampleNow (Some tuesday)
                             [toDailyEntry liveTuesdayPresent] [liveTuesdayPresent]
                             [] [] [] = FutureNotice
      \/ exists shown,
          dailyAttendanceDetails exampleZone exampleNow (Some tuesday)
                                 [toDailyEntry liveTuesdayPresent] [liveTuesdayPresent]
                                 [] [] []
          = RealtimeList shown
          /\ forall e, In e [toDailyEntry liveTuesdayPresent] ->
                       exists r, In r shown /\ toDailyEntry r = e).
Proof.
  assert (H : In (setDailyAttendance [toDailyEntry liveTuesdayPresent])
                 (recentAttendanceEffect exampleZone (Some "u2"%string)
                                         [liveTuesdayPresent] (Some tuesday)))
    by (right; left; reflexivity).
  split; [exact H|].
  exact (live_daily_list_is_never_shown exampleZone (Some "u2"%string)
           [liveTuesdayPresent] tuesday [toDailyEntry liveTuesdayPresent] exampleNow
           [toDailyEntry liveTuesdayPresent] [] [] [] H).
Defined.

Lemma live_merge_keeps_days_distinct_witness :
  let st' := step exampleZone exampleNow
                  (RecentAttendanceChanged (Some "u2"%string) [liveTuesdayPresent])
                  mondayState in
  distinctDays exampleZone (attendanceDays mondayState)
  /\ distinctDays exampleZone (lateAttendanceDays mondayState)
  /\ distinctDays exampleZone (attendanceDays st')
  /\ distinctDays exampleZone (lateAttendanceDays st').
Proof.
  intros st'.
  assert (DP : distinctDays exampleZone (attendanceDays mondayState)).
  { unfold distinctDays. vm_compute. constructor; [intros []|constructor]. }
  assert (DL : distinctDays exampleZone (lateAttendanceDays mondayState)).
  { unfold distinctDays. vm_compute. constructor. }
  split; [exact DP|]. split; [exact DL|].
  exact (live_merge_keeps_days_distinct exampleZone exampleNow (Some "u2"%string)
           [liveTuesdayPresent] mondayState DP DL).
Defined.

Lemma other_faces_are_ignored_witness :
  matchesFace "u2" liveUnauthorized = false
  /\ recentAttendanceEffect exampleZone (Some "u2"%string)
                            ([liveTuesdayPresent] ++ liveUnauthorized :: [])
                            (Some tuesday)
     = recentAttendanceEffect exampleZone (Some "u2"%string)
                              ([liveTuesdayPresent] ++ []) (Some tuesday).
Proof.
  split; [reflexivity|].
  exact (other_faces_are_ignored exampleZone "u2" [liveTuesdayPresent] []
           liveUnauthorized (Some tuesday) eq_refl).
Defined.

Lemma empty_fetch_keeps_absent_days_witness :
  let st' := step exampleZone exampleNow
                  (RecordsLoaded (Fulfilled (answered [])) (Fulfilled (answered [rowFar])))
                  mondayState in
  fetchedDays (answered []) (answered [rowFar]) = ([], [])
  /\ absentDays mondayState = [tuesday; wednesday]
  /\ attendanceDays st' = []
  /\ lateAttendanceDays st' = []
  /\ absentDays st' = absentDays mondayState.
Proof.
  intros st'.
  assert (E : fetchedDays (answered []) (answered [rowFar]) = ([], []))
    by reflexivity.
  split; [exact E|]. split; [vm_compute; reflexivity|].
  exact (empty_fetch_keeps_absent_days exampleZone exampleNow (answered [])
           (answered [rowFar]) mondayState E).
Defined.
